(** * ModeloSuicidio: the compartmental S/T/R model, its initial conditions,
      desk check and calibration, embedded from the Python sources.

    The repository ships two near-duplicate implementations:
    - the [core] package (class [ModeloNoLineal], windowed by
      [anio_ini]/[anio_fin]): core/nonlinear_model.py, core/analysis.py,
      core/calibration.py;
    - the [modelo_suicidio] package (class [ModeloSuicidio], over the whole
      series): model.py, analysis.py, calibration.py.
    Both are embedded, each in modules named after its source file.

    Python floats are IEEE binary64 numbers and are modelled by Rocq's
    primitive floats, so every arithmetic expression below rounds exactly as
    the source does.  Exceptions are an explicit result type; console output
    is a returned list of lines where a claim speaks about warnings.  SciPy's
    [solve_ivp] and [least_squares] are external: the functions that call them
    take them as section variables. *)

From Stdlib Require Import Floats Uint63 ZArith List String Bool Lia DecimalString.
From Stdlib Require Import Sorted Permutation.
Import ListNotations.

#[local] Set Warnings "-inexact-float".

(** ** Python values: exceptions, results, triples *)

Inductive exn : Type :=
| ValueError (msg : string)
| RuntimeError (msg : string)
| IndexError (msg : string)
| AttributeError (msg : string)
| OtraExcepcion (msg : string).

Inductive res (A : Type) : Type :=
| Ok (a : A)
| Raise (e : exn).

Arguments Ok {A} a.
Arguments Raise {A} e.

Definition bind {A B : Type} (r : res A) (k : A -> res B) : res B :=
  match r with
  | Ok a => k a
  | Raise e => Raise e
  end.

Notation "x <- r ;; k" := (bind r (fun x => k))
  (at level 61, r at next level, right associativity).
Notation "' p <- r ;; k" := (bind r (fun p => k))
  (at level 61, p pattern, r at next level, right associativity).

(** [y = [S, T, R]] and the four free parameters [theta, rho, beta, gamma]. *)
Definition vec3 : Type := (float * float * float)%type.
Definition vec4 : Type := (float * float * float * float)%type.

Definition comp_S (y : vec3) : float := fst (fst y).
Definition comp_T (y : vec3) : float := snd (fst y).
Definition comp_R (y : vec3) : float := snd y.

(** An integer (a year of the table) used where NumPy expects a float; exact
    below 2^53. *)
Definition Z2float (z : Z) : float :=
  match z with
  | Z0 => 0%float
  | Zpos _ => of_uint63 (Uint63.of_Z z)
  | Zneg p => (- of_uint63 (Uint63.of_Z (Zpos p)))%float
  end.

Definition str_Z (z : Z) : string := NilZero.string_of_int (Z.to_int z).

(** A line written by [print]: the text of the f-string and the numbers
    formatted into it (accents and emoji of the source text are dropped). *)
Inductive linea : Type :=
| Linea (texto : string) (valores : list float).

(** ** numpy.interp

    One-dimensional piecewise linear interpolation as NumPy computes it for
    strictly increasing sample points: the boundary value is held outside
    the sampled range, a knot returns its sample, and inside a segment the
    value is [slope * (x - xp[j]) + fp[j]], retried from the right end when
    that is NaN.  The segment is found here by a left-to-right scan after
    the test of the left end.  NumPy does not check that [xp] increases and
    searches differently (right end first, then a bisection); on sample
    points that do not increase its result is another one, so every
    statement below about an interpolated value assumes increasing sample
    points ([creciente]) or holds whatever the value is.  The two failures
    (no sample point, different lengths) are NumPy's, in its order. *)

Fixpoint interp_tramos (x x0 f0 : float) (xp fp : list float) : float :=
  match xp, fp with
  | x1 :: xp', f1 :: fp' =>
      if (x <? x1)%float then
        if (x0 =? x)%float then f0
        else
          let slope := ((f1 - f0) / (x1 - x0))%float in
          let r := (slope * (x - x0) + f0)%float in
          if is_nan r then
            let r' := (slope * (x - x1) + f1)%float in
            if is_nan r' && (f0 =? f1)%float then f0 else r'
          else r
      else interp_tramos x x1 f1 xp' fp'
  | _, _ => f0
  end.

Definition np_interp (x : float) (xp fp : list float) : res float :=
  match xp, fp with
  | [], _ => Raise (ValueError "array of sample points is empty")
  | x0 :: xp', f0 :: fp' =>
      if negb (Nat.eqb (List.length fp') (List.length xp')) then
        Raise (ValueError "fp and xp are not of the same length.")
      else
        match xp' with
        | [] => Ok f0
        | _ =>
            Ok (if is_nan x then x
                else if (x <? x0)%float then f0
                else interp_tramos x x0 f0 xp' fp')
        end
  | _ :: _, [] => Raise (ValueError "fp and xp are not of the same length.")
  end.

(** [np.linspace(t0, tf, num)]: [num] evenly spaced samples, the last one
    set to [tf] itself. *)
Definition np_linspace (t0 tf : float) (num : nat) : list float :=
  match num with
  | O => []
  | 1%nat => [t0]
  | _ =>
      let paso := ((tf - t0) / of_uint63 (Uint63.of_Z (Z.of_nat (num - 1))))%float in
      map (fun i => (of_uint63 (Uint63.of_Z (Z.of_nat i)) * paso + t0)%float)
          (seq 0 (num - 1))
      ++ [tf]
  end.

(** [a[0]] and [a[-1]] on a NumPy array. *)
Definition np_primero {A : Type} (a : list A) : res A :=
  match a with
  | [] => Raise (IndexError "index 0 is out of bounds for axis 0 with size 0")
  | v :: _ => Ok v
  end.

Definition np_ultimo {A : Type} (a : list A) : res A :=
  match rev a with
  | [] => Raise (IndexError "index -1 is out of bounds for axis 0 with size 0")
  | v :: _ => Ok v
  end.

(** ** parameters.py: the parameter record (both packages declare the same
       dataclass) *)

Record ModeloParametros : Type := mkParametros {
  delta : float;
  delta_s : float;
  delta_n : float;
  m : float;
  phi : float;
  psi : float;
  theta : float;
  rho : float;
  beta : float;
  gamma : float
}.

(** ** The observation table: the columns of the DataFrame the core reads
       (a cell holding an integer count is taken at its float value) *)

Record Fila : Type := mkFila {
  anio : Z;
  Poblacion_10ymas_P : float;
  T_obs : float
}.

Definition DataFrame : Type := list Fila.

(** ** SciPy's result objects *)

(** [solve_ivp]'s result.  [ode_puntos] pairs [sol.t[i]] with the column
    [sol.y[:, i]] (SciPy returns them with equal lengths); [ode_sol] is the
    dense output [sol.sol]. *)
Record OdeResult : Type := mkOdeResult {
  ode_puntos : list (float * vec3);
  ode_sol : float -> vec3;
  ode_success : bool;
  ode_status : Z;
  ode_message : string
}.

Definition ode_t (sol : OdeResult) : list float := map fst (ode_puntos sol).
Definition ode_y (k : vec3 -> float) (sol : OdeResult) : list float :=
  map (fun p => k (snd p)) (ode_puntos sol).

(** When it was given [t_eval] and produced no point, SciPy leaves [sol.t]
    and [sol.y] plain empty lists instead of arrays: [sol.y[k]] then raises
    [IndexError] and [sol.y.T] raises [AttributeError]. *)
Definition ode_y_fila (k : vec3 -> float) (sol : OdeResult) : res (list float) :=
  match ode_puntos sol with
  | [] => Raise (IndexError "list index out of range")
  | _ :: _ => Ok (ode_y k sol)
  end.

Definition ode_y_T (sol : OdeResult) : res (list vec3) :=
  match ode_puntos sol with
  | [] => Raise (AttributeError "'list' object has no attribute 'T'")
  | _ :: _ => Ok (map snd (ode_puntos sol))
  end.

(** The signature of [scipy.integrate.solve_ivp] as the sources call it:
    [fun], [t_span], [y0], [method], [t_eval], [dense_output]. *)
Definition solve_ivp_t : Type :=
  (float -> vec3 -> res vec3) -> float * float -> vec3 -> string ->
  option (list float) -> bool -> res OdeResult.

Record OptimizeResult : Type := mkOptimizeResult {
  opt_x : vec4;
  opt_cost : float;
  opt_message : string;
  opt_success : bool;
  opt_nfev : Z
}.

Record LsqOpciones : Type := mkLsqOpciones {
  lsq_method : string;
  lsq_verbose : Z;
  lsq_max_nfev : option Z;
  lsq_ftol : option float;
  lsq_xtol : option float;
  lsq_gtol : option float
}.

(** The signature of [scipy.optimize.least_squares]: residual function,
    starting point, [(lower, upper)] bounds, keyword options. *)
Definition least_squares_t : Type :=
  (vec4 -> res (list float)) -> vec4 -> vec4 * vec4 -> LsqOpciones ->
  res OptimizeResult.

(** ** core/nonlinear_model.py *)

Module ModeloNoLineal.

Record t : Type := mk {
  params : ModeloParametros;
  anios : list float;
  P : list float
}.

(** [__init__]: both arrays are converted with [astype(float)]. *)
Definition init (params : ModeloParametros) (anios : list Z) (P : list float) : t :=
  mk params (map Z2float anios) P.

Definition P_t (self : t) (t : float) : res float :=
  np_interp t (anios self) (P self).

Definition rhs (self : t) (t : float) (y : vec3) : res vec3 :=
  let S := comp_S y in
  let T := comp_T y in
  let R := comp_R y in
  let delta_n := delta_n (params self) in
  let delta_s := delta_s (params self) in
  let theta := theta (params self) in
  let rho := rho (params self) in
  let beta := beta (params self) in
  let gamma := gamma (params self) in
  P_val <- P_t self t ;;
  let P_val := if (P_val <? 1e-9)%float then 1%float else P_val in
  let term_influencia := (beta * delta_s * (T / P_val) * S)%float in
  let term_otras := (gamma * (1 - beta) * delta_s * S)%float in
  let dS := ((theta * P_val) + ((1 - delta_n) * R) - term_otras - term_influencia
             - (delta_s * S) - (delta_n * S))%float in
  let dT := (term_otras + term_influencia - (rho * T) - (delta_s * T)
             - (delta_n * T))%float in
  let dR := ((rho * T) - R)%float in
  Ok (dS, dT, dR).

Section con_scipy.
Variable solve_ivp : solve_ivp_t.

(** Returns what was printed together with [(sol.t, sol.y.T)]; a line
    printed before [sol.y.T] raises is not kept. *)
Definition simular (self : t) (t0 tf : float) (x0 : vec3) (num_puntos : nat)
  : res (list linea * (list float * list vec3)) :=
  let t_eval := np_linspace t0 tf num_puntos in
  sol <- solve_ivp (rhs self) (t0, tf) x0 "RK45"%string (Some t_eval) false ;;
  let salida :=
    if negb (ode_success sol)
    then [Linea ("Advertencia en simulacion: " ++ ode_message sol)%string []]
    else [] in
  y_T <- ode_y_T sol ;;
  Ok (salida, (ode_t sol, y_T)).
End con_scipy.

End ModeloNoLineal.

(** ** modelo_suicidio/model.py *)

Module ModeloSuicidio.

Record t : Type := mk {
  param : ModeloParametros;
  series_P : list float;
  series_anio : list Z
}.

(** [np.argsort] followed by indexing both arrays: the pairs in increasing
    order of year (a stable insertion here; the order among equal years is
    NumPy's choice and no result below depends on it). *)
Fixpoint insertar (a : Z) (p : float) (l : list (Z * float)) : list (Z * float) :=
  match l with
  | [] => [(a, p)]
  | (a', p') :: l' =>
      if (a <=? a')%Z then (a, p) :: l else (a', p') :: insertar a p l'
  end.

Definition ordenar (l : list (Z * float)) : list (Z * float) :=
  fold_right (fun ap acc => insertar (fst ap) (snd ap) acc) [] l.

Definition init (parametros : ModeloParametros) (series_P : list float)
    (series_anio : list Z) : res t :=
  if negb (Nat.eqb (List.length series_P) (List.length series_anio)) then
    Raise (ValueError "series_P y series_anio deben tener la misma longitud")
  else
    let ordenados := ordenar (combine series_anio series_P) in
    Ok (mk parametros (map snd ordenados) (map fst ordenados)).

Definition P_t (self : t) (t : float) : res float :=
  np_interp t (map Z2float (series_anio self)) (series_P self).

Definition rhs (self : t) (t : float) (y : vec3) : res vec3 :=
  let S := comp_S y in
  let T := comp_T y in
  let R := comp_R y in
  P <- P_t self t ;;
  let P := if (P <? 1.0)%float then 1.0%float else P in
  let theta := theta (param self) in
  let rho := rho (param self) in
  let beta := beta (param self) in
  let gamma := gamma (param self) in
  let delta_s := delta_s (param self) in
  let delta_n := delta_n (param self) in
  let entrada_S_desde_P := (theta * P)%float in
  let regreso_R_a_S := ((1 - delta_n) * R)%float in
  let salida_S_influencia := (gamma * (1 - beta) * delta_s * S)%float in
  let salida_S_contagio := (beta * delta_s * (T / P) * S)%float in
  let mortalidad_S_suicidio := (delta_s * S)%float in
  let mortalidad_S_natural := (delta_n * S)%float in
  let dS_dt := (entrada_S_desde_P + regreso_R_a_S
                - salida_S_influencia - salida_S_contagio
                - mortalidad_S_suicidio - mortalidad_S_natural)%float in
  let entrada_T_desde_S := (salida_S_influencia + salida_S_contagio)%float in
  let salida_T_recuperacion := (rho * T)%float in
  let mortalidad_T_suicidio := (delta_s * T)%float in
  let mortalidad_T_natural := (delta_n * T)%float in
  let dT_dt := (entrada_T_desde_S - salida_T_recuperacion
                - mortalidad_T_suicidio - mortalidad_T_natural)%float in
  let entrada_R_desde_T := salida_T_recuperacion in
  let salida_R := R in
  let dR_dt := (entrada_R_desde_T - salida_R)%float in
  Ok (dS_dt, dT_dt, dR_dt).

Section con_scipy.
Variable solve_ivp : solve_ivp_t.

(** Returns [(t, S, T, R)]. *)
Definition simular (self : t) (t_inicial t_final : float) (x0 : vec3)
    (num_pasos : nat) (metodo : string)
  : res (list float * list float * list float * list float) :=
  let t_eval := np_linspace t_inicial t_final num_pasos in
  sol <- solve_ivp (rhs self) (t_inicial, t_final) x0 metodo (Some t_eval) true ;;
  if negb (ode_success sol) then
    Raise (RuntimeError ("La integracion fallo: " ++ ode_message sol)%string)
  else
    let t := ode_t sol in
    S <- ode_y_fila comp_S sol ;;
    T <- ode_y_fila comp_T sol ;;
    R <- ode_y_fila comp_R sol ;;
    Ok (t, S, T, R).

(** Returns [(S, T, R)] evaluated at [t_puntos] on the dense output. *)
Definition evaluar_en_puntos (self : t) (t_inicial t_final : float) (x0 : vec3)
    (t_puntos : list float) : res (list float * list float * list float) :=
  sol <- solve_ivp (rhs self) (t_inicial, t_final) x0 "RK45"%string None true ;;
  if negb (ode_success sol) then
    Raise (RuntimeError ("La integracion fallo: " ++ ode_message sol)%string)
  else
    Ok (map (fun t => comp_S (ode_sol sol t)) t_puntos,
        map (fun t => comp_T (ode_sol sol t)) t_puntos,
        map (fun t => comp_R (ode_sol sol t)) t_puntos).
End con_scipy.

End ModeloSuicidio.

(** ** core/analysis.py *)

Module core_analysis.

Definition condiciones_iniciales (df : DataFrame) (params : ModeloParametros)
    (anio_ini : Z) : res vec3 :=
  let row := filter (fun f => (anio f =? anio_ini)%Z) df in
  match row with
  | [] => Raise (ValueError ("No hay datos para el anio " ++ str_Z anio_ini)%string)
  | f :: _ =>
      let P0 := Poblacion_10ymas_P f in
      let T0 := (m params * P0)%float in
      let R0 := (phi params * T0)%float in
      let S0 := (P0 - T0 - R0)%float in
      Ok (S0, T0, R0)
  end.

(** A row of the merged table.  The key column is a float (it comes from
    [sol.t]); a cell pandas leaves empty is NaN. *)
Record FilaResultado : Type := mkFilaResultado {
  r_anio : float;
  S_model : float;
  T_model : float;
  R_model : float;
  r_Poblacion_10ymas_P : float;
  r_T_obs : float;
  error_abs : float;
  error_rel : float
}.

(** [np.arange(a, b)] on integers. *)
Definition arange (a b : Z) : list Z :=
  map (fun k => (a + Z.of_nat k)%Z) (seq 0 (Z.to_nat (b - a))).

(** [pd.merge(res_df, df_obs, on='anio', how='left')]: the rows of the left
    table in order, each paired with every right row of the same key, or
    with empty (NaN) cells when there is none.  Each row is
    [(anio, y, Poblacion_10ymas_P, T_obs)]. *)
Definition merge_left (res_df : list (float * vec3)) (df_obs : DataFrame)
  : list (float * vec3 * float * float) :=
  flat_map
    (fun p =>
       match filter (fun f => (fst p =? Z2float (anio f))%float) df_obs with
       | [] => [(fst p, snd p, nan, nan)]
       | fs => map (fun f => (fst p, snd p, Poblacion_10ymas_P f, T_obs f)) fs
       end)
    res_df.

Definition con_errores (fila : float * vec3 * float * float) : FilaResultado :=
  let '(a, y, P, T_o) := fila in
  let error_abs := (comp_T y - T_o)%float in
  let error_rel := abs (error_abs / T_o) in
  mkFilaResultado a (comp_S y) (comp_T y) (comp_R y) P T_o error_abs error_rel.

Section con_scipy.
Variable solve_ivp : solve_ivp_t.

Definition prueba_escritorio (df : DataFrame) (params : ModeloParametros)
    (anio_ini anio_fin : Z) : res (list FilaResultado) :=
  let anios_data := map anio df in
  let P_data := map Poblacion_10ymas_P df in
  let modelo := ModeloNoLineal.init params anios_data P_data in
  x0 <- condiciones_iniciales df params anio_ini ;;
  let anios_eval := arange anio_ini (anio_fin + 1) in
  sol <- solve_ivp (ModeloNoLineal.rhs modelo)
           (Z2float anio_ini, Z2float anio_fin) x0 "RK45"%string
           (Some (map Z2float anios_eval)) false ;;
  (* the columns [sol.t], [sol.y[0]], [sol.y[1]], [sol.y[2]], read by rows *)
  _ <- ode_y_fila comp_S sol ;;
  let res_df := ode_puntos sol in
  let merged := merge_left res_df df in
  Ok (map con_errores merged).
End con_scipy.

End core_analysis.

(** ** modelo_suicidio/analysis.py *)

Module analysis.

(** [Series.iloc[0]] and [Series.iloc[-1]]. *)
Definition iloc_0 {A : Type} (l : list A) : res A :=
  match l with
  | [] => Raise (IndexError "single positional indexer is out-of-bounds")
  | a :: _ => Ok a
  end.

Definition iloc_m1 {A : Type} (l : list A) : res A :=
  match rev l with
  | [] => Raise (IndexError "single positional indexer is out-of-bounds")
  | a :: _ => Ok a
  end.

(** Returns the printed lines and the array [[S0, T0, R0]]. *)
Definition condiciones_iniciales (df : DataFrame) (params : ModeloParametros)
  : res (list linea * vec3) :=
  P0 <- iloc_0 (map Poblacion_10ymas_P df) ;;
  let T0 := (m params * P0)%float in
  let R0 := (phi params * T0)%float in
  let S0 := (P0 - T0 - R0)%float in
  let salida := [] in
  let '(salida, S0) :=
    if (S0 <? 0)%float
    then (salida ++ [Linea "Advertencia: S0 < 0. Ajustando a 0." [S0]], 0%float)
    else (salida, S0) in
  let '(salida, T0) :=
    if (T0 <? 0)%float
    then (salida ++ [Linea "Advertencia: T0 < 0. Ajustando a 0." [T0]], 0%float)
    else (salida, T0) in
  let '(salida, R0) :=
    if (R0 <? 0)%float
    then (salida ++ [Linea "Advertencia: R0 < 0. Ajustando a 0." [R0]], 0%float)
    else (salida, R0) in
  anio0 <- iloc_0 (map anio df) ;;
  let salida :=
    salida ++
    [ Linea "Condiciones iniciales (anio):" [Z2float anio0];
      Linea "  P0 =" [P0];
      Linea "  S0 = (% de P)" [S0; (100 * S0 / P0)%float];
      Linea "  T0 = (% de P)" [T0; (100 * T0 / P0)%float];
      Linea "  R0 = (% de P)" [R0; (100 * R0 / P0)%float];
      Linea "  Verificacion: S0+T0+R0 = (aprox P0 = )" [(S0 + T0 + R0)%float; P0] ] in
  Ok (salida, (S0, T0, R0)).

Record FilaResultado : Type := mkFilaResultado {
  r_anio : Z;
  r_P : float;
  r_T_obs : float;
  T_model : float;
  S_model : float;
  R_model : float;
  error_abs : float;
  error_rel : float;
  error_rel_pct : float
}.

Definition fila_resultado (f : Fila) (STR : float * (float * float)) : FilaResultado :=
  let '(S_m, (T_m, R_m)) := STR in
  let error_abs := (T_m - T_obs f)%float in
  let error_rel := (error_abs / T_obs f)%float in
  let error_rel_pct := (error_rel * 100)%float in
  mkFilaResultado (anio f) (Poblacion_10ymas_P f) (T_obs f) T_m S_m R_m
    error_abs error_rel error_rel_pct.

Section con_scipy.
Variable solve_ivp : solve_ivp_t.

(** The report printed when [verbose] is set (banner, MAE, RMSE, MAPE, a
    dump of the table) does not reach the returned table and is left
    out, as are the lines printed by [condiciones_iniciales]. *)
Definition prueba_escritorio (df : DataFrame) (params : ModeloParametros)
    (verbose : bool) : res (list FilaResultado) :=
  '(_, x0) <- condiciones_iniciales df params ;;
  modelo <- ModeloSuicidio.init params (map Poblacion_10ymas_P df) (map anio df) ;;
  t_inicial <- iloc_0 (map anio df) ;;
  t_final <- iloc_m1 (map anio df) ;;
  let t_puntos := map Z2float (map anio df) in
  '(S_model, T_model, R_model) <-
    ModeloSuicidio.evaluar_en_puntos solve_ivp modelo
      (Z2float t_inicial) (Z2float t_final) x0 t_puntos ;;
  let resultados :=
    map (fun fx => fila_resultado (fst fx) (snd fx))
        (combine df (combine S_model (combine T_model R_model))) in
  Ok resultados.
End con_scipy.

End analysis.

(** ** Array helpers shared by the two calibration modules *)

(** [np.full_like(a, v)] and [np.ones_like(a)]. *)
Definition full_like (a : list float) (v : float) : list float := map (fun _ => v) a.
Definition ones_like (a : list float) : list float := map (fun _ => 1%float) a.

(** Elementwise [a - b] on arrays of equal length. *)
Definition resta (a b : list float) : list float :=
  map (fun ab => (fst ab - snd ab)%float) (combine a b).

Definition nl : string := String (Ascii.ascii_of_nat 10) EmptyString.

(** Python's [pat in s]. *)
Definition contiene (pat s : string) : bool :=
  match String.index 0 pat s with
  | Some _ => true
  | None => false
  end.

(** ** core/calibration.py *)

Module core_calibration.

Section con_scipy.
Variable solve_ivp : solve_ivp_t.
Variable least_squares : least_squares_t.
(** [str(x)] and [format(x, '.4f')] of a float, as used in the log. *)
Variable str_float : float -> string.
Variable fmt_4f : float -> string.

(** The closure [residuals] with the variables it captures. *)
Definition residuals (df : DataFrame) (params_base : ModeloParametros)
    (anio_ini anio_fin : Z) (p_vec : vec4) : res (list float) :=
  let anios_data := map anio df in
  let P_data := map Poblacion_10ymas_P df in
  let df_subset :=
    filter (fun f => (anio_ini <=? anio f)%Z && (anio f <=? anio_fin)%Z) df in
  let t_obs_vals := map anio df_subset in
  let T_obs_vals := map T_obs df_subset in
  let '(theta, rho, beta, gamma) := p_vec in
  let p :=
    mkParametros (delta params_base) (delta_s params_base) (delta_n params_base)
      (m params_base) (phi params_base) (psi params_base)
      theta rho beta gamma in
  let modelo := ModeloNoLineal.init p anios_data P_data in
  match core_analysis.condiciones_iniciales df p anio_ini with
  | Raise _ => Ok (full_like T_obs_vals 1e6)
  | Ok init_cond =>
      match solve_ivp (ModeloNoLineal.rhs modelo)
              (Z2float anio_ini, Z2float anio_fin) init_cond "RK45"%string
              (Some (map Z2float t_obs_vals)) false with
      | Raise _ => Ok (full_like T_obs_vals 1e6)
      | Ok sol =>
          if negb (ode_status sol =? 0)%Z || negb (ode_success sol) then
            Ok (full_like T_obs_vals 1e6)
          else
            (* [sol.y[1]]; on a result without points its [IndexError] is caught
               by the handler below and gives the vector of the length test *)
            let T_model := ode_y comp_T sol in
            if negb (Nat.eqb (List.length T_model) (List.length T_obs_vals)) then
              Ok (full_like T_obs_vals 1e6)
            else
              Ok (resta T_model T_obs_vals)
      end
  end.

Definition calibrar_parametros (df : DataFrame) (params_base : ModeloParametros)
    (anio_ini anio_fin : Z) (num_theta num_gamma : Z)
    (progress_callback : option (Z -> unit))
  : res (ModeloParametros * float * string) :=
  let x0 := (delta_n params_base, 0.1, 0.3, 10.0)%float in
  let bounds := ((0.0, 0.0, 0.0, 0.0), (1.0, 1.0, 1.0, 20.0))%float in
  let log_str := ("Iniciando calibracion con parametros iniciales:" ++ nl)%string in
  let log_str :=
    (log_str ++ "Theta: " ++ str_float (delta_n params_base)
             ++ ", Rho: " ++ str_float 0.1
             ++ ", Beta: " ++ str_float 0.3
             ++ ", Gamma: " ++ str_float 10.0 ++ nl)%string in
  res <- least_squares (residuals df params_base anio_ini anio_fin) x0 bounds
           (mkLsqOpciones "trf" 0 None None None None) ;;
  let best_params_vec := opt_x res in
  let best_cost := opt_cost res in
  let msg_traducido :=
    if contiene "`ftol` termination condition is satisfied" (opt_message res) then
      "Convergencia alcanzada (criterio de tolerancia ftol satisfecho)."%string
    else if contiene "`gtol` termination condition is satisfied" (opt_message res) then
      "Convergencia alcanzada (criterio de gradiente gtol satisfecho)."%string
    else if contiene "`xtol` termination condition is satisfied" (opt_message res) then
      "Convergencia alcanzada (criterio de paso xtol satisfecho)."%string
    else if contiene "The maximum number of function evaluations is exceeded"
              (opt_message res) then
      "Se excedio el numero maximo de evaluaciones."%string
    else opt_message res in
  let log_str :=
    (log_str ++ nl ++ "Calibracion finalizada." ++ nl
             ++ "Costo final (suma cuadrados residuos / 2): "
             ++ fmt_4f best_cost ++ nl)%string in
  let log_str :=
    (log_str ++ "Exito: " ++ (if opt_success res then "True" else "False") ++ nl
             ++ "Mensaje: " ++ msg_traducido ++ nl)%string in
  let '(x_0, x_1, x_2, x_3) := best_params_vec in
  let final_params :=
    mkParametros (delta params_base) (delta_s params_base) (delta_n params_base)
      (m params_base) (phi params_base) (psi params_base)
      x_0 x_1 x_2 x_3 in
  Ok (final_params, best_cost, log_str).
End con_scipy.

End core_calibration.

(** ** modelo_suicidio/calibration.py *)

Module calibration.

(** The dict [params_fijos]. *)
Record ParamsFijos : Type := mkParamsFijos {
  f_delta : float;
  f_delta_s : float;
  f_delta_n : float;
  f_m : float;
  f_phi : float;
  f_psi : float
}.

(** [ModeloParametros( **params_fijos, theta=.., rho=.., beta=.., gamma=..)]. *)
Definition ModeloParametros_de (params_fijos : ParamsFijos)
    (theta rho beta gamma : float) : ModeloParametros :=
  mkParametros (f_delta params_fijos) (f_delta_s params_fijos)
    (f_delta_n params_fijos) (f_m params_fijos) (f_phi params_fijos)
    (f_psi params_fijos) theta rho beta gamma.

Section con_scipy.
Variable solve_ivp : solve_ivp_t.
Variable least_squares : least_squares_t.

(** The closure [residuos] with the variables it captures.  What it and
    its callees print is not kept. *)
Definition residuos (df : DataFrame) (params_fijos : ParamsFijos)
    (T_obs : list float) (t_puntos : list float) (t_inicial t_final : float)
    (verbose : Z) (x : vec4) : res (list float) :=
  let '(theta, rho, beta, gamma) := x in
  let params := ModeloParametros_de params_fijos theta rho beta gamma in
  '(_, x0_cond) <- analysis.condiciones_iniciales df params ;;
  modelo <- ModeloSuicidio.init params (map Poblacion_10ymas_P df) (map anio df) ;;
  match ModeloSuicidio.evaluar_en_puntos solve_ivp modelo t_inicial t_final
          x0_cond t_puntos with
  | Raise _ => Ok (map (fun u => (u * 1e10)%float) (ones_like T_obs))
  | Ok (S_model, T_model, R_model) =>
      let res := resta T_model T_obs in
      Ok res
  end.

(** The progress and result report on the console, and the fit metrics
    computed only to be printed, are left out. *)
Definition calibrar_parametros (df : DataFrame) (params_iniciales : ModeloParametros)
    (metodo : string) (verbose : Z) : res (ModeloParametros * OptimizeResult) :=
  let params_fijos :=
    mkParamsFijos (delta params_iniciales) (delta_s params_iniciales)
      (delta_n params_iniciales) (m params_iniciales) (phi params_iniciales)
      (psi params_iniciales) in
  let x0 :=
    (theta params_iniciales, rho params_iniciales,
     beta params_iniciales, gamma params_iniciales) in
  let T_obs := map T_obs df in
  let t_puntos := map Z2float (map anio df) in
  t_inicial <- np_primero t_puntos ;;
  t_final <- np_ultimo t_puntos ;;
  let bounds_lower := (0.0, 0.0, 0.0, 0.0)%float in
  let bounds_upper := (infinity, infinity, 1.0%float, infinity) in
  resultado <- least_squares
                 (residuos df params_fijos T_obs t_puntos t_inicial t_final verbose)
                 x0 (bounds_lower, bounds_upper)
                 (mkLsqOpciones metodo verbose (Some 1000%Z)
                    (Some 1e-8%float) (Some 1e-8%float) (Some 1e-8%float)) ;;
  let '(theta_opt, rho_opt, beta_opt, gamma_opt) := opt_x resultado in
  let params_calibrados :=
    ModeloParametros_de params_fijos theta_opt rho_opt beta_opt gamma_opt in
  '(_, x0_cond) <- analysis.condiciones_iniciales df params_calibrados ;;
  modelo <- ModeloSuicidio.init params_calibrados
              (map Poblacion_10ymas_P df) (map anio df) ;;
  '(S_model, T_model, R_model) <-
    ModeloSuicidio.evaluar_en_puntos solve_ivp modelo t_inicial t_final
      x0_cond t_puntos ;;
  Ok (params_calibrados, resultado).
End con_scipy.

End calibration.


(** * Specification-side definitions *)

(** The derivative vector in the words of the design document, for a
    population value [P] that has already been guarded. *)
Definition rhs_espec (p : ModeloParametros) (P : float) (y : vec3) : vec3 :=
  let S := comp_S y in
  let T := comp_T y in
  let R := comp_R y in
  let inflow_influence := (beta p * delta_s p * (T / P) * S)%float in
  let inflow_other := (gamma p * (1 - beta p) * delta_s p * S)%float in
  let dS := (theta p * P + (1 - delta_n p) * R - inflow_other - inflow_influence
             - delta_s p * S - delta_n p * S)%float in
  let dT := (inflow_other + inflow_influence - rho p * T - delta_s p * T
             - delta_n p * T)%float in
  let dR := (rho p * T - R)%float in
  (dS, dT, dR).

(** "Clamped to a minimum of 1.0". *)
Definition piso_P (P : float) : float := if (P <? 1.0)%float then 1.0%float else P.

(** The guard of [ModeloNoLineal.rhs]: 1.0 replaces only values below 1e-9. *)
Definition guarda_P (P : float) : float := if (P <? 1e-9)%float then 1%float else P.

(** The value the contagion term divides by, in each implementation. *)
Definition divisor_ModeloSuicidio (self : ModeloSuicidio.t) (t : float) : res float :=
  P <- ModeloSuicidio.P_t self t ;; Ok (piso_P P).

Definition divisor_ModeloNoLineal (self : ModeloNoLineal.t) (t : float) : res float :=
  P <- ModeloNoLineal.P_t self t ;; Ok (guarda_P P).

(** The initial state in the words of the design document, from the
    population [P0] of the start year. *)
Definition estado_inicial_espec (params : ModeloParametros) (P0 : float) : vec3 :=
  let T0 := (m params * P0)%float in
  let R0 := (phi params * T0)%float in
  let S0 := (P0 - T0 - R0)%float in
  (S0, T0, R0).

(** "Below zero is clamped to zero". *)
Definition recorte_0 (x : float) : float := if (x <? 0)%float then 0%float else x.

(** The sentinel range of the design document, [1e6 .. 1e10]. *)
Definition es_centinela (v : float) : bool := (1e6 <=? v)%float && (v <=? 1e10)%float.

(** The observed years inside the calibration window. *)
Definition ventana (df : DataFrame) (anio_ini anio_fin : Z) : DataFrame :=
  filter (fun f => (anio_ini <=? anio f)%Z && (anio f <=? anio_fin)%Z) df.

(** The parameter record of a trial point: the six fixed fields of the base
    record and the trial vector [theta, rho, beta, gamma]. *)
Definition params_de_ensayo (params_base : ModeloParametros) (x : vec4)
  : ModeloParametros :=
  let '(theta, rho, beta, gamma) := x in
  mkParametros (delta params_base) (delta_s params_base) (delta_n params_base)
    (m params_base) (phi params_base) (psi params_base) theta rho beta gamma.

Definition fijos_de (params : ModeloParametros) : calibration.ParamsFijos :=
  calibration.mkParamsFijos (delta params) (delta_s params) (delta_n params)
    (m params) (phi params) (psi params).

(** A trial point of the windowed calibration fails: the initial condition
    solver raises, or the integration raises or reports non-success. *)
Definition falla_ensayo_core (solve_ivp : solve_ivp_t) (df : DataFrame)
    (params_base : ModeloParametros) (anio_ini anio_fin : Z) (x : vec4) : Prop :=
  let p := params_de_ensayo params_base x in
  match core_analysis.condiciones_iniciales df p anio_ini with
  | Raise _ => True
  | Ok x0 =>
      match solve_ivp
              (ModeloNoLineal.rhs
                 (ModeloNoLineal.init p (map anio df) (map Poblacion_10ymas_P df)))
              (Z2float anio_ini, Z2float anio_fin) x0 "RK45"%string
              (Some (map Z2float (map anio (ventana df anio_ini anio_fin)))) false with
      | Raise _ => True
      | Ok sol => ode_success sol = false
      end
  end.

(** A trial point of the whole-series calibration fails: the integration
    raises or reports non-success, that is, [evaluar_en_puntos] raises. *)
Definition falla_ensayo_serie (solve_ivp : solve_ivp_t) (df : DataFrame)
    (params_iniciales : ModeloParametros) (t_inicial t_final : float) (x : vec4)
  : Prop :=
  let p := params_de_ensayo params_iniciales x in
  match analysis.condiciones_iniciales df p,
        ModeloSuicidio.init p (map Poblacion_10ymas_P df) (map anio df) with
  | Ok (_, x0), Ok modelo =>
      match ModeloSuicidio.evaluar_en_puntos solve_ivp modelo t_inicial t_final x0
              (map Z2float (map anio df)) with
      | Raise _ => True
      | Ok _ => False
      end
  | _, _ => False
  end.

(** The six fields calibration holds fixed. *)
Definition campos_fijos (p : ModeloParametros)
  : float * float * float * float * float * float :=
  (delta p, delta_s p, delta_n p, m p, phi p, psi p).

(** The six fields the RHS reads. *)
Definition campos_rhs (p : ModeloParametros)
  : float * float * float * float * float * float :=
  (delta_s p, delta_n p, theta p, rho p, beta p, gamma p).

(** * Concrete tables, models, solvers and optimizers

    Small inputs on which the definitions above are evaluated. *)

Module Ejemplos.

(** The scenario of the design document: three years of data. *)
Definition df_3 : DataFrame :=
  [ mkFila 2010 100000 500; mkFila 2011 101000 520; mkFila 2012 102000 540 ]%float.

Definition params_3 : ModeloParametros :=
  mkParametros 0.007 0.0001 0.0069 0.005 0.5 0.9925 0.1 0.5 0.5 1.0.

(** The same record with other values in the four fields the RHS does not read. *)
Definition params_3' : ModeloParametros :=
  mkParametros 0.5 0.0001 0.0069 0.25 0.75 0.125 0.1 0.5 0.5 1.0.

Definition ms_3 : ModeloSuicidio.t :=
  ModeloSuicidio.mk params_3 [100000; 101000; 102000]%float [2010; 2011; 2012]%Z.

Definition mn_3 : ModeloNoLineal.t :=
  ModeloNoLineal.init params_3 [2010; 2011; 2012]%Z [100000; 101000; 102000]%float.

(** A population below one person: 0.5 in both sampled years. *)
Definition params_theta : ModeloParametros := mkParametros 0 0 0 0 0 0 1 0 0 0.
Definition params_contagio : ModeloParametros := mkParametros 1 1 0 0 0 0 0 0 1 0.

Definition mn_medio (p : ModeloParametros) : ModeloNoLineal.t :=
  ModeloNoLineal.init p [2010; 2011]%Z [0.5; 0.5]%float.

Definition ms_medio (p : ModeloParametros) : ModeloSuicidio.t :=
  ModeloSuicidio.mk p [0.5; 0.5]%float [2010; 2011]%Z.

(** A table whose only population cell is empty (NaN). *)
Definition ms_nan : ModeloSuicidio.t :=
  ModeloSuicidio.mk params_3 [nan] [2010]%Z.

(** Parameters for which the susceptible compartment starts negative:
    [m = 0.8], [phi = 0.5]. *)
Definition params_neg : ModeloParametros :=
  mkParametros 0.007 0.0001 0.0069 0.8 0.5 0 0.1 0.5 0.5 1.0.

Definition df_1000 : DataFrame := [ mkFila 2010 1000 500 ]%float.

(** Seven people, [m = phi = 0.3]. *)
Definition params_03 : ModeloParametros :=
  mkParametros 0.007 0.0001 0.0069 0.3 0.3 0.61 0.1 0.5 0.5 1.0.

Definition df_7 : DataFrame := [ mkFila 2010 7 2 ]%float.



(** A solver that succeeds and holds the state at [y0]. *)
Definition solver_constante : solve_ivp_t :=
  fun _ t_span y0 _ t_eval _ =>
    Ok (mkOdeResult
          (map (fun t => (t, y0)) (match t_eval with Some ts => ts | None => [] end))
          (fun _ => y0) true 0
          "The solver successfully reached the end of the integration interval.").

(** A solver that gives up after the initial point. *)
Definition solver_fallido : solve_ivp_t :=
  fun _ t_span y0 _ _ _ =>
    Ok (mkOdeResult [(fst t_span, y0)] (fun _ => y0) false (-1)
          "Required step size is less than spacing between numbers.").

(** A solver that fails before it reaches any requested time. *)
Definition solver_sin_puntos : solve_ivp_t :=
  fun _ _ y0 _ _ _ =>
    Ok (mkOdeResult [] (fun _ => y0) false (-1)
          "Required step size is less than spacing between numbers.").

(** A table of two years whose observations are both missing. *)
Definition df_sin_obs : DataFrame := [ mkFila 2010 1000 nan; mkFila 2011 1010 nan ].

(** A solver that raises. *)
Definition solver_excepcion : solve_ivp_t :=
  fun _ _ _ _ _ _ => Raise (ValueError "Values in `t_eval` are not within `t_span`.").

(** An optimizer that evaluates the residuals once and stays at [x0]. *)
Definition optimizador_x0 : least_squares_t :=
  fun f x0 _ _ =>
    r <- f x0 ;;
    Ok (mkOptimizeResult x0
          (0.5 * fold_left (fun acc v => acc + v * v) r 0)%float
          "`gtol` termination condition is satisfied." true 1).

Definition sin_formato : float -> string := fun _ => "?"%string.

End Ejemplos.

(** * Further functions of the two packages

    NumPy's reductions and elementwise functions ([np.mean], [np.sum],
    [np.exp], [np.log]) are external and taken as section variables, as is
    the formatting of a float into a message. *)

(** ** modelo_suicidio/parameters.py *)

Module parameters.

Section con_numpy.
Variable np_exp : float -> float.
Variable np_log : float -> float.
Variable np_mean : list float -> float.
(** [str(x)] and [format(x, '.6f')]. *)
Variable str_float : float -> string.
Variable fmt_6f : float -> string.

Definition estimar_m (df : DataFrame) : res float :=
  let m_i := map (fun f => (T_obs f / Poblacion_10ymas_P f)%float) df in
  let m_i_validos := filter (fun v => (0 <? v)%float) m_i in
  if Nat.eqb (List.length m_i_validos) 0 then
    Raise (ValueError "No hay valores validos de T_obs para calcular m")
  else
    let m := np_exp (np_mean (map np_log m_i_validos)) in
    Ok m.

Definition estimar_phi_psi (m phi : float) : res (float * float) :=
  let psi := (1.0 - m - phi * m)%float in
  if (psi <? 0)%float then
    Raise (ValueError
             ("Parametros inconsistentes: psi = 1 - m - phi*m = " ++ fmt_6f psi
              ++ " < 0" ++ nl ++ "Con m = " ++ fmt_6f m ++ " y phi = " ++ fmt_6f phi
              ++ nl ++ "Pruebe reducir phi o verificar los datos.")%string)
  else Ok (phi, psi).

(** Returns the printed lines and [True] (a line printed before a later
    check raises is not kept). *)
Definition validar_parametros (params : ModeloParametros) : res (list linea * bool) :=
  if (delta params <? 0)%float then
    Raise (ValueError ("delta debe ser >= 0, recibido: " ++ str_float (delta params))%string)
  else if (delta_s params <? 0)%float then
    Raise (ValueError ("delta_s debe ser >= 0, recibido: "
                       ++ str_float (delta_s params))%string)
  else if (delta_n params <? 0)%float then
    Raise (ValueError ("delta_n debe ser >= 0, recibido: "
                       ++ str_float (delta_n params))%string)
  else if (1e-6 <? abs (delta params - (delta_s params + delta_n params)))%float then
    Raise (ValueError "delta debe ser igual a delta_s + delta_n")
  else if negb ((0 <=? phi params)%float && (phi params <=? 1)%float) then
    Raise (ValueError ("phi debe estar en [0, 1], recibido: "
                       ++ str_float (phi params))%string)
  else if negb ((0 <=? psi params)%float && (psi params <=? 1)%float) then
    Raise (ValueError ("psi debe estar en [0, 1], recibido: "
                       ++ str_float (psi params))%string)
  else if negb ((0 <=? beta params)%float && (beta params <=? 1)%float) then
    Raise (ValueError ("beta debe estar en [0, 1], recibido: "
                       ++ str_float (beta params))%string)
  else if (m params <? 0)%float then
    Raise (ValueError ("m debe ser >= 0, recibido: " ++ str_float (m params))%string)
  else
    let salida :=
      if (0.5 <? m params)%float
      then [Linea "Advertencia: m parece alto (>50% de P en tratamiento)" [m params]]
      else [] in
    if (theta params <? 0)%float then
      Raise (ValueError ("theta debe ser >= 0, recibido: "
                         ++ str_float (theta params))%string)
    else if (rho params <? 0)%float then
      Raise (ValueError ("rho debe ser >= 0, recibido: " ++ str_float (rho params))%string)
    else if (gamma params <? 0)%float then
      Raise (ValueError ("gamma debe ser >= 0, recibido: "
                         ++ str_float (gamma params))%string)
    else Ok (salida, true).

End con_numpy.

End parameters.

(** ** core/linear_relations.py *)

Module linear_relations.

Section con_numpy.
Variable np_exp : float -> float.
Variable np_log : float -> float.
Variable np_mean : list float -> float.

Definition estimar_m (df : DataFrame) (anio_ini anio_fin : Z) : res float :=
  let df_subset :=
    filter (fun f => (anio_ini <=? anio f)%Z && (anio f <=? anio_fin)%Z) df in
  match df_subset with
  | [] => Raise (ValueError ("No hay datos en el rango " ++ str_Z anio_ini ++ "-"
                             ++ str_Z anio_fin)%string)
  | _ =>
      let m_i := map (fun f => (T_obs f / Poblacion_10ymas_P f)%float) df_subset in
      let m_i_valid := filter (fun v => (0 <? v)%float) m_i in
      match m_i_valid with
      | [] => Ok 0.0%float
      | _ =>
          let m := np_exp (np_mean (map np_log m_i_valid)) in
          Ok m
      end
  end.

End con_numpy.

(** Returns the printed lines and [(phi, psi)]. *)
Definition calcular_phi_psi (m phi : float) : list linea * (float * float) :=
  let psi := (1 - m - phi * m)%float in
  let salida :=
    if negb ((0 <=? psi)%float && (psi <=? 1)%float)
    then [Linea "Advertencia: psi calculado esta fuera del rango [0, 1]. Revise m y phi."
            [psi; m; phi]]
    else [] in
  (salida, (phi, psi)).

(** A row of the copy of the table with the columns [T_lin], [R_lin],
    [S_lin] added. *)
Record FilaLineal : Type := mkFilaLineal {
  fila : Fila;
  T_lin : float;
  R_lin : float;
  S_lin : float
}.

Definition construir_series_lineales (df : DataFrame) (m phi psi : float)
  : list FilaLineal :=
  map (fun f =>
         let T_lin := (m * Poblacion_10ymas_P f)%float in
         let R_lin := (phi * T_lin)%float in
         let S_lin := (Poblacion_10ymas_P f - T_lin - R_lin)%float in
         mkFilaLineal f T_lin R_lin S_lin)
      df.

End linear_relations.

(** ** core/statistics.py *)

Module core_statistics.

(** The dictionary of fit statistics.  (The second copy of this file in the
    repository also stores the simulated table under ['res_df'].) *)
Record Estadisticas : Type := mkEstadisticas {
  R2 : float;
  MSE : float;
  RMSE : float;
  MAE : float;
  MAPE : float;
  n_obs : nat
}.

Section con_scipy.
Variable solve_ivp : solve_ivp_t.
Variable np_sum : list float -> float.
Variable np_mean : list float -> float.

(** [dropna(subset=['T_obs', 'T_model'])]. *)
Definition dropna (res_df : list core_analysis.FilaResultado)
  : list core_analysis.FilaResultado :=
  filter (fun r => negb (is_nan (core_analysis.r_T_obs r))
                   && negb (is_nan (core_analysis.T_model r))) res_df.

(** [x ** 2] on a float array is NumPy's square, [x * x]. *)
Definition cuadrado (x : float) : float := (x * x)%float.

Definition calculate_statistics (df : DataFrame) (params : ModeloParametros)
    (anio_ini anio_fin : Z) : res Estadisticas :=
  res_df <- core_analysis.prueba_escritorio solve_ivp df params anio_ini anio_fin ;;
  let valid := dropna res_df in
  match valid with
  | [] => Ok (mkEstadisticas 0.0 0.0 0.0 0.0 0.0 0)
  | _ =>
      let y_true := map core_analysis.r_T_obs valid in
      let y_pred := map core_analysis.T_model valid in
      let ss_res := np_sum (map cuadrado (resta y_true y_pred)) in
      let media := np_mean y_true in
      let ss_tot := np_sum (map (fun v => cuadrado (v - media)%float) y_true) in
      let r2 := if negb (ss_tot =? 0)%float then (1 - (ss_res / ss_tot))%float
                else 0.0%float in
      let mse := np_mean (map cuadrado (resta y_true y_pred)) in
      let rmse := PrimFloat.sqrt mse in
      let mae := np_mean (map abs (resta y_true y_pred)) in
      let no_cero := filter (fun tp => negb (fst tp =? 0)%float) (combine y_true y_pred) in
      let mape :=
        if existsb (fun v => negb (v =? 0)%float) y_true then
          (np_mean (map (fun tp => abs ((fst tp - snd tp) / fst tp)%float) no_cero)
           * 100)%float
        else 0.0%float in
      Ok (mkEstadisticas r2 mse rmse mae mape (List.length y_true))
  end.

End con_scipy.

End core_statistics.

(** ** modelo_suicidio/calibration.py: calibration with custom bounds *)

Module calibration_restricciones.

Section con_scipy.
Variable solve_ivp : solve_ivp_t.
Variable least_squares : least_squares_t.

(** The closure [residuos] of [calibrar_con_restricciones] with the
    variables it captures. *)
Definition residuos (df : DataFrame) (params_fijos : calibration.ParamsFijos)
    (T_obs : list float) (t_puntos : list float) (t_inicial t_final : float)
    (x : vec4) : res (list float) :=
  let '(theta, rho, beta, gamma) := x in
  let params := calibration.ModeloParametros_de params_fijos theta rho beta gamma in
  '(_, x0_cond) <- analysis.condiciones_iniciales df params ;;
  modelo <- ModeloSuicidio.init params (map Poblacion_10ymas_P df) (map anio df) ;;
  match ModeloSuicidio.evaluar_en_puntos solve_ivp modelo t_inicial t_final
          x0_cond t_puntos with
  | Raise _ => Ok (map (fun u => (u * 1e10)%float) (ones_like T_obs))
  | Ok (S_model, T_model, R_model) => Ok (resta T_model T_obs)
  end.

Definition calibrar_con_restricciones (df : DataFrame)
    (params_iniciales : ModeloParametros)
    (theta_bounds rho_bounds beta_bounds gamma_bounds : option (float * float))
    (metodo : string) (verbose : Z) : res (ModeloParametros * OptimizeResult) :=
  let theta_bounds :=
    match theta_bounds with None => (0.0%float, infinity) | Some b => b end in
  let rho_bounds :=
    match rho_bounds with None => (0.0%float, infinity) | Some b => b end in
  let beta_bounds :=
    match beta_bounds with None => (0.0, 1.0)%float | Some b => b end in
  let gamma_bounds :=
    match gamma_bounds with None => (0.0%float, infinity) | Some b => b end in
  let params_fijos :=
    calibration.mkParamsFijos (delta params_iniciales) (delta_s params_iniciales)
      (delta_n params_iniciales) (m params_iniciales) (phi params_iniciales)
      (psi params_iniciales) in
  let x0 :=
    (theta params_iniciales, rho params_iniciales,
     beta params_iniciales, gamma params_iniciales) in
  let T_obs := map T_obs df in
  let t_puntos := map Z2float (map anio df) in
  t_inicial <- np_primero t_puntos ;;
  t_final <- np_ultimo t_puntos ;;
  let bounds_lower :=
    (fst theta_bounds, fst rho_bounds, fst beta_bounds, fst gamma_bounds) in
  let bounds_upper :=
    (snd theta_bounds, snd rho_bounds, snd beta_bounds, snd gamma_bounds) in
  resultado <- least_squares
                 (residuos df params_fijos T_obs t_puntos t_inicial t_final)
                 x0 (bounds_lower, bounds_upper)
                 (mkLsqOpciones metodo verbose (Some 1000%Z) None None None) ;;
  let '(theta_opt, rho_opt, beta_opt, gamma_opt) := opt_x resultado in
  let params_calibrados :=
    calibration.ModeloParametros_de params_fijos theta_opt rho_opt beta_opt gamma_opt in
  Ok (params_calibrados, resultado).

End con_scipy.

End calibration_restricciones.

(** ** Series of sample years in strictly increasing order *)

Definition creciente (xp : list float) : Prop :=
  StronglySorted (fun a b => (a <? b)%float = true) xp.

(** A pair of bounds, or its default when the argument is [None]. *)
Definition o_defecto (d : float * float) (o : option (float * float)) : float * float :=
  match o with
  | None => d
  | Some b => b
  end.

(** Pairs (year, population) compared by year. *)
Definition por_anio (u v : Z * float) : Prop := (fst u <= fst v)%Z.

(** * Facts about binary64 comparison *)

Lemma SFcompare_opuesto (x y : spec_float) :
  SFcompare y x = option_map CompOpp (SFcompare x y).
Proof.
  destruct x as [sx|sx| |sx mx ex], y as [sy|sy| |sy my ey]; try reflexivity;
    try (destruct sx; reflexivity); try (destruct sy; reflexivity);
    try (destruct sx, sy; reflexivity).
  cbn. f_equal.
  destruct sx, sy; try reflexivity;
    rewrite (Z.compare_antisym ex ey); destruct (ex ?= ey)%Z; cbn; try reflexivity;
    change (PosDef.Pos.compare_cont Eq my mx) with (Pos.compare my mx);
    change (PosDef.Pos.compare_cont Eq mx my) with (Pos.compare mx my);
    rewrite (Pos.compare_antisym mx my); destruct (mx ?= my)%positive; reflexivity.
Qed.

Lemma ltb_false_leb (x y : float) :
  is_nan x = false -> is_nan y = false -> (x <? y)%float = false -> (y <=? x)%float = true.
Proof.
  unfold is_nan. rewrite !FloatAxioms.eqb_spec, FloatAxioms.ltb_spec, FloatAxioms.leb_spec.
  unfold SFeqb, SFltb, SFleb. rewrite (SFcompare_opuesto (Prim2SF x) (Prim2SF y)).
  intros Hx Hy.
  destruct (SFcompare (Prim2SF x) (Prim2SF y)) as [[]|] eqn:E; cbn; try congruence.
  destruct (Prim2SF x) as [sx|sx| |sx mx ex], (Prim2SF y) as [sy|sy| |sy my ey];
    cbn in *; discriminate.
Qed.

Lemma is_nan_Prim2SF (x : float) : is_nan x = true <-> Prim2SF x = S754_nan.
Proof.
  unfold is_nan. rewrite FloatAxioms.eqb_spec. unfold SFeqb.
  destruct (Prim2SF x) as [s|s| |s mx ex] eqn:E; cbn.
  - split; discriminate.
  - destruct s; split; discriminate.
  - split; reflexivity.
  - change (PosDef.Pos.compare_cont Eq mx mx) with (Pos.compare mx mx).
    rewrite (Z.compare_refl ex), (Pos.compare_refl mx).
    destruct s; split; discriminate.
Qed.





(** * Proof steps *)

(** The call a sequence of binds starts with. *)
Ltac primera_llamada c :=
  lazymatch c with
  | bind ?c' _ => primera_llamada c'
  | match ?c' with Ok _ => _ | Raise _ => _ end => primera_llamada c'
  | _ => c
  end.

(** One step through a sequence of calls under the assumption that the whole
    sequence returned: its first call returned too, with result [p]. *)
Tactic Notation "retorna" "como" simple_intropattern(p) :=
  match goal with
  | |- context [bind ?c _] =>
      let c' := primera_llamada c in destruct c' as [p|?]; cbn; [|discriminate]
  | |- context [match ?c with Ok _ => _ | Raise _ => _ end] =>
      let c' := primera_llamada c in destruct c' as [p|?]; cbn; [|discriminate]
  end.

(** * The right-hand side of the system *)

Lemma rhs_ModeloSuicidio_espec (self : ModeloSuicidio.t) (t : float) (y : vec3) :
  ModeloSuicidio.rhs self t y =
  (D <- divisor_ModeloSuicidio self t ;;
   Ok (rhs_espec (ModeloSuicidio.param self) D y)).
Proof.
  unfold ModeloSuicidio.rhs, divisor_ModeloSuicidio.
  destruct (ModeloSuicidio.P_t self t); reflexivity.
Qed.

Lemma rhs_ModeloNoLineal_espec (self : ModeloNoLineal.t) (t : float) (y : vec3) :
  ModeloNoLineal.rhs self t y =
  (D <- divisor_ModeloNoLineal self t ;;
   Ok (rhs_espec (ModeloNoLineal.params self) D y)).
Proof.
  unfold ModeloNoLineal.rhs, divisor_ModeloNoLineal.
  destruct (ModeloNoLineal.P_t self t); reflexivity.
Qed.

(** C1, as stated, fails on [ModeloNoLineal.rhs]: with an interpolated
    population of 0.5 and [theta = 1] (every other coefficient and the state
    zero) the code returns [dS = theta * 0.5], while the formula on the
    population floored at 1.0 gives [dS = 1]. *)
Lemma C1_contraejemplo :
  ModeloNoLineal.P_t (Ejemplos.mn_medio Ejemplos.params_theta) 2010 = Ok 0.5%float /\
  ModeloNoLineal.rhs (Ejemplos.mn_medio Ejemplos.params_theta) 2010 (0, 0, 0)%float
    = Ok (0.5, 0, 0)%float /\
  rhs_espec Ejemplos.params_theta (piso_P 0.5) (0, 0, 0)%float = (1, 0, 0)%float /\
  ModeloNoLineal.rhs (Ejemplos.mn_medio Ejemplos.params_theta) 2010 (0, 0, 0)%float
    <> Ok (rhs_espec Ejemplos.params_theta (piso_P 0.5) (0, 0, 0)%float).
Proof.
  repeat split; try (vm_compute; reflexivity).
  intros H.
  apply (f_equal (fun r => match r with
                           | Ok v => (comp_S v =? 1)%float
                           | Raise _ => true
                           end)) in H.
  vm_compute in H. discriminate H.
Qed.

(** C1 (amended): for every time [t] and state [(S, T, R)] both RHS functions
    return exactly the derivative vector of the design document,
    [inflow_influence = beta*delta_s*(T/P)*S],
    [inflow_other = gamma*(1-beta)*delta_s*S], [dS], [dT], [dR] as written
    there, where [P] is the interpolated population after the guard of the
    implementation: floored at 1.0 in [ModeloSuicidio.rhs], replaced by 1.0
    only when below 1e-9 in [ModeloNoLineal.rhs].  When the interpolation
    raises, so does the RHS. *)
Theorem C1_rhs_formula (ms : ModeloSuicidio.t) (mn : ModeloNoLineal.t)
    (t : float) (y : vec3) :
  ModeloSuicidio.rhs ms t y =
    (P <- ModeloSuicidio.P_t ms t ;;
     Ok (rhs_espec (ModeloSuicidio.param ms) (piso_P P) y)) /\
  ModeloNoLineal.rhs mn t y =
    (P <- ModeloNoLineal.P_t mn t ;;
     Ok (rhs_espec (ModeloNoLineal.params mn) (guarda_P P) y)).
Proof.
  split.
  - unfold ModeloSuicidio.rhs. destruct (ModeloSuicidio.P_t ms t); reflexivity.
  - unfold ModeloNoLineal.rhs. destruct (ModeloNoLineal.P_t mn t); reflexivity.
Qed.

(** C2, as stated, fails: [ModeloNoLineal.rhs] divides by 0.5 when the
    population interpolates to 0.5 (with [beta = delta_s = 1] and
    [S = T = 1] the contagion term is [1/0.5 = 2], so [dT = 1] where the
    floored divisor would give 0); and in [ModeloSuicidio.rhs] a NaN
    population passes the guard unchanged. *)
Lemma C2_contraejemplo :
  divisor_ModeloNoLineal (Ejemplos.mn_medio Ejemplos.params_contagio) 2010
    = Ok 0.5%float /\
  (1 <=? 0.5)%float = false /\
  ModeloNoLineal.rhs (Ejemplos.mn_medio Ejemplos.params_contagio) 2010 (1, 1, 0)%float
    = Ok (-3, 1, 0)%float /\
  rhs_espec Ejemplos.params_contagio (piso_P 0.5) (1, 1, 0)%float = (-2, 0, 0)%float /\
  divisor_ModeloSuicidio Ejemplos.ms_nan 2010 = Ok nan /\
  (1 <=? nan)%float = false.
Proof. repeat split; vm_compute; reflexivity. Qed.

(** C2 (amended): each RHS divides by its guarded population, the guard
    being applied before the division.  In [ModeloSuicidio.rhs] the value 1.0
    is substituted whenever the interpolated population is below 1.0, so the
    divisor is at least 1.0 unless the interpolated value is NaN.  In
    [ModeloNoLineal.rhs] the value 1.0 is substituted only when the
    interpolated population is below 1e-9; otherwise the population itself is
    the divisor, which is then at least 1e-9 (unless NaN) and may be below
    1.0. *)
Theorem C2_divisor (ms : ModeloSuicidio.t) (mn : ModeloNoLineal.t)
    (t : float) (y : vec3) :
  ModeloSuicidio.rhs ms t y =
    (D <- divisor_ModeloSuicidio ms t ;;
     Ok (rhs_espec (ModeloSuicidio.param ms) D y)) /\
  ModeloNoLineal.rhs mn t y =
    (D <- divisor_ModeloNoLineal mn t ;;
     Ok (rhs_espec (ModeloNoLineal.params mn) D y)) /\
  (forall P, ModeloSuicidio.P_t ms t = Ok P ->
     exists D, divisor_ModeloSuicidio ms t = Ok D /\
       ((P <? 1)%float = true -> D = 1%float) /\
       ((P <? 1)%float = false -> D = P) /\
       (is_nan P = false -> (1 <=? D)%float = true)) /\
  (forall P, ModeloNoLineal.P_t mn t = Ok P ->
     exists D, divisor_ModeloNoLineal mn t = Ok D /\
       ((P <? 1e-9)%float = true -> D = 1%float) /\
       ((P <? 1e-9)%float = false -> D = P) /\
       (is_nan P = false -> (1e-9 <=? D)%float = true)).
Proof.
  split; [apply rhs_ModeloSuicidio_espec|].
  split; [apply rhs_ModeloNoLineal_espec|].
  split; intros P HP.
  - exists (piso_P P). unfold divisor_ModeloSuicidio. rewrite HP.
    split; [reflexivity|]. unfold piso_P.
    destruct (P <? 1)%float eqn:E; repeat split; try congruence.
    intros Hn. apply ltb_false_leb; auto.
  - exists (guarda_P P). unfold divisor_ModeloNoLineal. rewrite HP.
    split; [reflexivity|]. unfold guarda_P.
    destruct (P <? 1e-9)%float eqn:E; repeat split; try congruence.
    intros Hn. apply ltb_false_leb; auto.
Qed.

Lemma C2_divisor_testigo :
  exists D, divisor_ModeloSuicidio (Ejemplos.ms_medio Ejemplos.params_contagio) 2010 = Ok D /\
    D = 1%float /\ (1 <=? D)%float = true.
Proof.
  destruct (C2_divisor (Ejemplos.ms_medio Ejemplos.params_contagio)
              (Ejemplos.mn_medio Ejemplos.params_contagio) 2010 (1, 1, 0)%float)
    as (_ & _ & H & _).
  destruct (H 0.5%float eq_refl) as (D & HD & Hlt & _ & Hge).
  exists D. split; [exact HD|]. split; [apply Hlt; reflexivity|apply Hge; reflexivity].
Defined.

(** C9: the RHS reads only [delta_s], [delta_n], [theta], [rho], [beta] and
    [gamma]: two parameter records that agree on these six fields give, over
    the same population series and at every time and state, identical results
    (the same derivative vector, or the same failure of the interpolation),
    whatever their [delta], [m], [phi] and [psi]. *)
Theorem C9_rhs_solo_seis_campos (p1 p2 : ModeloParametros)
    (series_P : list float) (series_anio : list Z) (anios P : list float)
    (t : float) (y : vec3) :
  campos_rhs p1 = campos_rhs p2 ->
  ModeloSuicidio.rhs (ModeloSuicidio.mk p1 series_P series_anio) t y =
  ModeloSuicidio.rhs (ModeloSuicidio.mk p2 series_P series_anio) t y /\
  ModeloNoLineal.rhs (ModeloNoLineal.mk p1 anios P) t y =
  ModeloNoLineal.rhs (ModeloNoLineal.mk p2 anios P) t y.
Proof.
  unfold campos_rhs. intros [= Hds Hdn Hth Hrh Hbe Hga].
  rewrite !rhs_ModeloSuicidio_espec, !rhs_ModeloNoLineal_espec.
  unfold divisor_ModeloSuicidio, divisor_ModeloNoLineal,
    ModeloSuicidio.P_t, ModeloNoLineal.P_t, rhs_espec; cbn.
  rewrite Hds, Hdn, Hth, Hrh, Hbe, Hga. split; reflexivity.
Qed.

Lemma C9_rhs_solo_seis_campos_testigo :
  ModeloSuicidio.rhs
    (ModeloSuicidio.mk Ejemplos.params_3 [100000; 101000; 102000]%float
       [2010; 2011; 2012]%Z) 2010.5 (99250, 500, 250)%float =
  ModeloSuicidio.rhs
    (ModeloSuicidio.mk Ejemplos.params_3' [100000; 101000; 102000]%float
       [2010; 2011; 2012]%Z) 2010.5 (99250, 500, 250)%float /\
  ModeloNoLineal.rhs
    (ModeloNoLineal.mk Ejemplos.params_3 [2010; 2011; 2012]%float
       [100000; 101000; 102000]%float) 2010.5 (99250, 500, 250)%float =
  ModeloNoLineal.rhs
    (ModeloNoLineal.mk Ejemplos.params_3' [2010; 2011; 2012]%float
       [100000; 101000; 102000]%float) 2010.5 (99250, 500, 250)%float.
Proof.
  apply (C9_rhs_solo_seis_campos Ejemplos.params_3 Ejemplos.params_3');
    reflexivity.
Defined.


(** * Initial conditions *)

Lemma filter_find {A : Type} (p : A -> bool) (l : list A) (a : A) :
  find p l = Some a -> exists r, filter p l = a :: r.
Proof.
  induction l as [|b l IH]; cbn; [discriminate|].
  destruct (p b); [intros [= ->]; eauto | exact IH].
Qed.

Lemma filter_ninguno {A : Type} (p : A -> bool) (l : list A) :
  (forall a, In a l -> p a = false) -> filter p l = [].
Proof.
  induction l as [|b l IH]; cbn; intros H; [reflexivity|].
  rewrite (H b (or_introl eq_refl)). apply IH. intros a Ha. apply H. now right.
Qed.

Lemma condiciones_iniciales_serie_recorta (f : Fila) (resto : DataFrame)
    (params : ModeloParametros) :
  exists salida,
    analysis.condiciones_iniciales (f :: resto) params
      = Ok (salida,
            (recorte_0 (comp_S (estado_inicial_espec params (Poblacion_10ymas_P f))),
             recorte_0 (comp_T (estado_inicial_espec params (Poblacion_10ymas_P f))),
             recorte_0 (comp_R (estado_inicial_espec params (Poblacion_10ymas_P f))))).
Proof.
  unfold analysis.condiciones_iniciales, estado_inicial_espec, recorte_0,
    comp_S, comp_T, comp_R; cbn.
  set (P0 := Poblacion_10ymas_P f).
  set (T0 := (m params * P0)%float).
  set (R0 := (phi params * T0)%float).
  set (S0 := (P0 - T0 - R0)%float).
  destruct (S0 <? 0)%float, (T0 <? 0)%float, (R0 <? 0)%float;
    cbn; eexists; reflexivity.
Qed.

(** C3, as stated, fails twice.  The windowed solver of core/analysis.py
    never clamps: with [m = 0.8], [phi = 0.5] and 1000 people it returns
    [S0 = -200].  And the sum is not exact in binary64: with
    [m = phi = 0.3] and 7 people, [S0 + T0 + R0] is [7.000000000000001]. *)
Lemma C3_contraejemplo :
  core_analysis.condiciones_iniciales Ejemplos.df_1000 Ejemplos.params_neg 2010
    = Ok (-200, 800, 400)%float /\
  (-200 <? 0)%float = true /\
  (exists salida,
     analysis.condiciones_iniciales Ejemplos.df_7 Ejemplos.params_03
       = Ok (salida, estado_inicial_espec Ejemplos.params_03 7)) /\
  (comp_S (estado_inicial_espec Ejemplos.params_03 7)
   + comp_T (estado_inicial_espec Ejemplos.params_03 7)
   + comp_R (estado_inicial_espec Ejemplos.params_03 7))%float
    = 7.000000000000001%float /\
  (7.000000000000001 =? 7)%float = false.
Proof.
  repeat split; try (vm_compute; reflexivity).
  eexists. vm_compute. reflexivity.
Qed.

(** C3 (amended): both solvers compute [T0 = m*P0], [R0 = phi*T0],
    [S0 = P0 - T0 - R0] in binary64 from the population [P0] of the start
    year; [S0] is the rounded difference, and [S0+T0+R0] need not equal [P0]
    exactly.  The windowed
    solver of core/analysis.py takes [P0] from the first row of year
    [anio_ini] and returns [(S0, T0, R0)] as computed, without clamping and
    without a warning.  The solver of analysis.py takes [P0] from the first
    row of the table, replaces each component that is below zero by zero,
    prints one warning per replaced component and still returns the clamped
    state. *)
Theorem C3_condiciones_iniciales (df resto : DataFrame) (params : ModeloParametros)
    (anio_ini : Z) (f : Fila) :
  (find (fun g => (anio g =? anio_ini)%Z) df = Some f ->
   core_analysis.condiciones_iniciales df params anio_ini
     = Ok (estado_inicial_espec params (Poblacion_10ymas_P f))) /\
  (exists salida,
     analysis.condiciones_iniciales (f :: resto) params
       = Ok (salida,
             (recorte_0 (comp_S (estado_inicial_espec params (Poblacion_10ymas_P f))),
              recorte_0 (comp_T (estado_inicial_espec params (Poblacion_10ymas_P f))),
              recorte_0 (comp_R (estado_inicial_espec params (Poblacion_10ymas_P f))))) /\
     (forall x, (x <? 0)%float = true -> recorte_0 x = 0%float) /\
     (forall x, (x <? 0)%float = false -> recorte_0 x = x) /\
     ((comp_S (estado_inicial_espec params (Poblacion_10ymas_P f)) <? 0)%float = true ->
      In (Linea "Advertencia: S0 < 0. Ajustando a 0."
            [comp_S (estado_inicial_espec params (Poblacion_10ymas_P f))]) salida) /\
     ((comp_T (estado_inicial_espec params (Poblacion_10ymas_P f)) <? 0)%float = true ->
      In (Linea "Advertencia: T0 < 0. Ajustando a 0."
            [comp_T (estado_inicial_espec params (Poblacion_10ymas_P f))]) salida) /\
     ((comp_R (estado_inicial_espec params (Poblacion_10ymas_P f)) <? 0)%float = true ->
      In (Linea "Advertencia: R0 < 0. Ajustando a 0."
            [comp_R (estado_inicial_espec params (Poblacion_10ymas_P f))]) salida)).
Proof.
  split.
  - intros Hf. unfold core_analysis.condiciones_iniciales.
    destruct (filter_find _ _ _ Hf) as [r ->]. reflexivity.
  - unfold analysis.condiciones_iniciales, estado_inicial_espec, recorte_0,
      comp_S, comp_T, comp_R; cbn.
    set (P0 := Poblacion_10ymas_P f).
    set (T0 := (m params * P0)%float).
    set (R0 := (phi params * T0)%float).
    set (S0 := (P0 - T0 - R0)%float).
    destruct (S0 <? 0)%float eqn:ES, (T0 <? 0)%float eqn:ET, (R0 <? 0)%float eqn:ER;
      cbn; eexists; (split; [reflexivity|]);
      (split; [intros x Hx; rewrite Hx; reflexivity|]);
      (split; [intros x Hx; rewrite Hx; reflexivity|]);
      repeat split; intros H; try discriminate H; cbn; auto 10.
Qed.

Lemma C3_condiciones_iniciales_testigo :
  core_analysis.condiciones_iniciales Ejemplos.df_3 Ejemplos.params_3 2011
    = Ok (estado_inicial_espec Ejemplos.params_3 101000) /\
  exists salida,
    analysis.condiciones_iniciales Ejemplos.df_1000 Ejemplos.params_neg
      = Ok (salida, (0, 800, 400)%float) /\
    In (Linea "Advertencia: S0 < 0. Ajustando a 0." [(-200)%float]) salida.
Proof.
  split.
  - apply (proj1 (C3_condiciones_iniciales Ejemplos.df_3 [] Ejemplos.params_3 2011
                    (mkFila 2011 101000 520))).
    reflexivity.
  - destruct (proj2 (C3_condiciones_iniciales [] [] Ejemplos.params_neg 2010
                       (mkFila 2010 1000 500)))
      as (salida & Hs & _ & _ & HS & _).
    exists salida. split; [exact Hs|]. apply HS. reflexivity.
Defined.

(** C8: when the starting year [anio_ini] occurs in no row of the table, the
    windowed solver raises [ValueError] ("No hay datos para el anio ..."); no
    other row is used in its place.  The solver of analysis.py takes no
    starting year: it always starts at the first row, and raises [IndexError]
    on a table without rows. *)
Theorem C8_anio_ausente (df : DataFrame) (params : ModeloParametros) (anio_ini : Z) :
  (forall f, In f df -> anio f <> anio_ini) ->
  core_analysis.condiciones_iniciales df params anio_ini
    = Raise (ValueError ("No hay datos para el anio " ++ str_Z anio_ini)%string) /\
  analysis.condiciones_iniciales [] params
    = Raise (IndexError "single positional indexer is out-of-bounds").
Proof.
  intros H. split; [|reflexivity].
  unfold core_analysis.condiciones_iniciales.
  rewrite filter_ninguno; [reflexivity|].
  intros f Hf. apply Z.eqb_neq. now apply H.
Qed.

Lemma C8_anio_ausente_testigo :
  core_analysis.condiciones_iniciales Ejemplos.df_3 Ejemplos.params_3 2009
    = Raise (ValueError "No hay datos para el anio 2009") /\
  analysis.condiciones_iniciales [] Ejemplos.params_3
    = Raise (IndexError "single positional indexer is out-of-bounds").
Proof.
  apply (C8_anio_ausente Ejemplos.df_3 Ejemplos.params_3 2009).
  intros f [<-|[<-|[<-|[]]]]; discriminate.
Defined.

(** * Direct calls to the integrator *)

(** C6, as stated, fails on [ModeloNoLineal.simular]: when the solver reports
    non-success the call prints a warning and returns the partial
    trajectory. *)
Lemma C6_contraejemplo :
  ModeloNoLineal.simular Ejemplos.solver_fallido Ejemplos.mn_3 2010 2012
    (99250, 500, 250)%float 500
  = Ok ([Linea "Advertencia en simulacion: Required step size is less than spacing between numbers." []],
        ([2010%float], [(99250, 500, 250)%float])).
Proof. vm_compute. reflexivity. Qed.

(** C6 (amended): when the ODE solver reports non-success, a direct call to
    [ModeloSuicidio.simular] (and to [ModeloSuicidio.evaluar_en_puntos])
    raises [RuntimeError] and returns no trajectory, while a direct call to
    [ModeloNoLineal.simular] prints a warning and, when the solver produced
    at least one point, returns that partial trajectory; when the solver
    produced no point it fails, not with an integration failure but with the
    [AttributeError] of [sol.y.T]. *)
Theorem C6_simular_sin_exito (solve_ivp : solve_ivp_t)
    (ms : ModeloSuicidio.t) (mn : ModeloNoLineal.t) (t0 tf : float) (x0 : vec3)
    (n : nat) (metodo : string) (t_puntos : list float) (sol : OdeResult) :
  ode_success sol = false ->
  (solve_ivp (ModeloSuicidio.rhs ms) (t0, tf) x0 metodo
     (Some (np_linspace t0 tf n)) true = Ok sol ->
   ModeloSuicidio.simular solve_ivp ms t0 tf x0 n metodo
     = Raise (RuntimeError ("La integracion fallo: " ++ ode_message sol)%string)) /\
  (solve_ivp (ModeloSuicidio.rhs ms) (t0, tf) x0 "RK45"%string None true = Ok sol ->
   ModeloSuicidio.evaluar_en_puntos solve_ivp ms t0 tf x0 t_puntos
     = Raise (RuntimeError ("La integracion fallo: " ++ ode_message sol)%string)) /\
  (solve_ivp (ModeloNoLineal.rhs mn) (t0, tf) x0 "RK45"%string
     (Some (np_linspace t0 tf n)) false = Ok sol ->
   (ode_puntos sol <> [] ->
    ModeloNoLineal.simular solve_ivp mn t0 tf x0 n
      = Ok ([Linea ("Advertencia en simulacion: " ++ ode_message sol)%string []],
            (ode_t sol, map snd (ode_puntos sol)))) /\
   (ode_puntos sol = [] ->
    ModeloNoLineal.simular solve_ivp mn t0 tf x0 n
      = Raise (AttributeError "'list' object has no attribute 'T'"))).
Proof.
  intros Hs. split; [|split].
  - intros Hsol. unfold ModeloSuicidio.simular. rewrite Hsol. cbn.
    rewrite Hs. reflexivity.
  - intros Hsol. unfold ModeloSuicidio.evaluar_en_puntos. rewrite Hsol. cbn.
    rewrite Hs. reflexivity.
  - intros Hsol. unfold ModeloNoLineal.simular, ode_y_T. rewrite Hsol. cbn.
    rewrite Hs. split; intros Hp.
    + destruct (ode_puntos sol); [congruence|reflexivity].
    + rewrite Hp. reflexivity.
Qed.

Lemma C6_simular_sin_exito_testigo :
  ModeloSuicidio.simular Ejemplos.solver_fallido Ejemplos.ms_3 2010 2012
    (99250, 500, 250)%float 3 "RK45"
  = Raise (RuntimeError
             "La integracion fallo: Required step size is less than spacing between numbers.") /\
  ModeloNoLineal.simular Ejemplos.solver_fallido Ejemplos.mn_3 2010 2012
    (99250, 500, 250)%float 3
  = Ok ([Linea "Advertencia en simulacion: Required step size is less than spacing between numbers." []],
        ([2010%float], [(99250, 500, 250)%float])) /\
  ModeloNoLineal.simular Ejemplos.solver_sin_puntos Ejemplos.mn_3 2010 2012
    (99250, 500, 250)%float 3
  = Raise (AttributeError "'list' object has no attribute 'T'").
Proof.
  pose proof (C6_simular_sin_exito Ejemplos.solver_fallido Ejemplos.ms_3 Ejemplos.mn_3
                2010 2012 (99250, 500, 250)%float 3 "RK45" []
                (mkOdeResult [(2010%float, (99250, 500, 250)%float)]
                   (fun _ => (99250, 500, 250)%float) false (-1)
                   "Required step size is less than spacing between numbers.")
                eq_refl) as (H1 & _ & H3).
  pose proof (C6_simular_sin_exito Ejemplos.solver_sin_puntos Ejemplos.ms_3
                Ejemplos.mn_3 2010 2012 (99250, 500, 250)%float 3 "RK45" []
                (mkOdeResult [] (fun _ => (99250, 500, 250)%float) false (-1)
                   "Required step size is less than spacing between numbers.")
                eq_refl) as (_ & _ & H3').
  split; [exact (H1 eq_refl)|]. split.
  - apply (proj1 (H3 eq_refl)). discriminate.
  - apply (proj2 (H3' eq_refl)). reflexivity.
Defined.

(** * The desk check *)

(** Where the rows of the left join come from. *)
Lemma merge_left_In (res_df : list (float * vec3)) (df_obs : DataFrame)
    (fila : float * vec3 * float * float) :
  In fila (core_analysis.merge_left res_df df_obs) <->
  exists pt, In pt res_df /\
    ((filter (fun f => (fst pt =? Z2float (anio f))%float) df_obs = [] /\
      fila = (fst pt, snd pt, nan, nan)) \/
     (exists f, In f (filter (fun f => (fst pt =? Z2float (anio f))%float) df_obs) /\
        fila = (fst pt, snd pt, Poblacion_10ymas_P f, T_obs f))).
Proof.
  unfold core_analysis.merge_left. rewrite in_flat_map.
  split; intros (pt & Hpt & H); exists pt; (split; [exact Hpt|]).
  - destruct (filter _ df_obs) as [|g gs] eqn:E.
    + destruct H as [<-|[]]. now left.
    + right. apply in_map_iff in H. destruct H as (f & <- & Hf). eauto.
  - destruct H as [[-> ->]|(f & Hf & ->)]; [now left|].
    destruct (filter _ df_obs) as [|g gs] eqn:E; [destruct Hf|].
    apply in_map_iff. eauto.
Qed.

Lemma con_errores_campos (a : float) (y : vec3) (P T_o : float) :
  let fila := core_analysis.con_errores (a, y, P, T_o) in
  core_analysis.r_anio fila = a /\
  core_analysis.S_model fila = comp_S y /\
  core_analysis.T_model fila = comp_T y /\
  core_analysis.R_model fila = comp_R y /\
  core_analysis.r_Poblacion_10ymas_P fila = P /\
  core_analysis.r_T_obs fila = T_o /\
  core_analysis.error_abs fila = (comp_T y - T_o)%float /\
  core_analysis.error_rel fila = abs ((comp_T y - T_o) / T_o)%float.
Proof. cbn. repeat split; reflexivity. Qed.

Lemma combine_map_fst {A B : Type} (l1 : list A) (l2 : list B) :
  List.length l1 = List.length l2 -> map fst (combine l1 l2) = l1.
Proof.
  revert l2. induction l1 as [|a l1 IH]; intros [|b l2]; cbn; try discriminate;
    [reflexivity|]. intros [= H]. now rewrite IH.
Qed.




(** * Calibration *)

Lemma map_constante {A B : Type} (c : B) (l : list A) :
  map (fun _ => c) l = repeat c (List.length l).
Proof. induction l as [|a l IH]; cbn; [reflexivity|now rewrite IH]. Qed.

Lemma full_like_repeat (a : list float) (v : float) :
  full_like a v = repeat v (List.length a).
Proof. apply map_constante. Qed.

Lemma unos_por_1e10 (a : list float) :
  map (fun u => (u * 1e10)%float) (ones_like a) = repeat 1e10%float (List.length a).
Proof.
  unfold ones_like. rewrite map_map. apply (map_constante (1 * 1e10)%float).
Qed.

(** On a table with at least one row neither the initial condition solver of
    analysis.py nor the constructor of [ModeloSuicidio] raises. *)
Lemma condiciones_iniciales_serie_ok (f : Fila) (resto : DataFrame)
    (params : ModeloParametros) :
  exists salida x0,
    analysis.condiciones_iniciales (f :: resto) params = Ok (salida, x0).
Proof.
  destruct (condiciones_iniciales_serie_recorta f resto params) as (salida & H).
  eauto.
Qed.

Lemma init_serie_ok (params : ModeloParametros) (df : DataFrame) :
  exists modelo,
    ModeloSuicidio.init params (map Poblacion_10ymas_P df) (map anio df) = Ok modelo.
Proof.
  unfold ModeloSuicidio.init. rewrite !length_map, Nat.eqb_refl. cbn. eauto.
Qed.

Lemma residuals_falla (solve_ivp : solve_ivp_t) (df : DataFrame)
    (params_base : ModeloParametros) (anio_ini anio_fin : Z) (x : vec4) :
  falla_ensayo_core solve_ivp df params_base anio_ini anio_fin x ->
  core_calibration.residuals solve_ivp df params_base anio_ini anio_fin x
    = Ok (repeat 1e6%float (List.length (ventana df anio_ini anio_fin))).
Proof.
  unfold falla_ensayo_core, core_calibration.residuals, params_de_ensayo, ventana.
  destruct x as [[[th rh] be] ga].
  destruct (core_analysis.condiciones_iniciales df _ anio_ini) as [x0|e].
  - destruct (solve_ivp _ _ _ _ _ _) as [sol|e].
    + intros ->. rewrite orb_true_r.
      now rewrite full_like_repeat, length_map.
    + intros _. now rewrite full_like_repeat, length_map.
  - intros _. now rewrite full_like_repeat, length_map.
Qed.

Lemma residuos_falla (solve_ivp : solve_ivp_t) (df : DataFrame)
    (params_iniciales : ModeloParametros) (t_inicial t_final : float)
    (verbose : Z) (x : vec4) :
  falla_ensayo_serie solve_ivp df params_iniciales t_inicial t_final x ->
  calibration.residuos solve_ivp df (fijos_de params_iniciales) (map T_obs df)
    (map Z2float (map anio df)) t_inicial t_final verbose x
    = Ok (repeat 1e10%float (List.length df)).
Proof.
  unfold falla_ensayo_serie, calibration.residuos, params_de_ensayo,
    calibration.ModeloParametros_de, fijos_de.
  destruct x as [[[th rh] be] ga]; cbn.
  destruct (analysis.condiciones_iniciales df _) as [[s x0]|e]; [|intros []].
  destruct (ModeloSuicidio.init _ _ _) as [modelo|e]; [|intros []]. cbn.
  destruct (ModeloSuicidio.evaluar_en_puntos _ _ _ _ _ _) as [[[S_m T_m] R_m]|e];
    [intros []|intros _].
  now rewrite unos_por_1e10, length_map.
Qed.

(** Without a row the whole-series calibration stops at [t_puntos[0]],
    before the optimizer is started. *)
Lemma calibrar_serie_vacia (solve_ivp : solve_ivp_t) (least_squares : least_squares_t)
    (params_iniciales : ModeloParametros) (metodo : string) (verbose : Z) :
  calibration.calibrar_parametros solve_ivp least_squares [] params_iniciales
    metodo verbose
  = Raise (IndexError "index 0 is out of bounds for axis 0 with size 0").
Proof. reflexivity. Qed.

(** ... and with a row, a trial point either integrates or fails in the
    integration: the residual function itself never raises. *)
Lemma residuos_no_propaga (solve_ivp : solve_ivp_t) (f : Fila) (resto : DataFrame)
    (params_iniciales : ModeloParametros) (t_inicial t_final : float)
    (verbose : Z) (x : vec4) :
  exists r,
    calibration.residuos solve_ivp (f :: resto) (fijos_de params_iniciales)
      (map T_obs (f :: resto)) (map Z2float (map anio (f :: resto)))
      t_inicial t_final verbose x = Ok r /\
    List.length r = List.length (f :: resto).
Proof.
  unfold calibration.residuos. destruct x as [[[th rh] be] ga].
  destruct (condiciones_iniciales_serie_ok f resto
              (calibration.ModeloParametros_de (fijos_de params_iniciales) th rh be ga))
    as (s & x0 & ->).
  destruct (init_serie_ok
              (calibration.ModeloParametros_de (fijos_de params_iniciales) th rh be ga)
              (f :: resto)) as (modelo & ->).
  cbn [bind].
  destruct (ModeloSuicidio.evaluar_en_puntos _ _ _ _ _ _) as [[[S_m T_m] R_m]|e] eqn:E.
  - eexists. split; [reflexivity|].
    unfold ModeloSuicidio.evaluar_en_puntos in E.
    destruct (solve_ivp _ _ _ _ _ _) as [sol|e]; cbn in E; [|discriminate].
    destruct (negb (ode_success sol)); [discriminate|].
    injection E as <- <- <-.
    unfold resta. rewrite length_map, length_combine.
    cbn [map List.length]. rewrite !length_map. apply Nat.min_id.
  - eexists. split; [reflexivity|].
    now rewrite unos_por_1e10, repeat_length, length_map.
Qed.

(** C4: when a trial point fails, the objective returns a constant residual
    vector with one entry per observed year instead of raising.  In the
    windowed calibration (core/calibration.py) a failure of the initial
    condition solver or of the integration (an exception or a non-success
    report) gives the vector of 1e6 over the observed years of the window.  In
    the whole-series calibration (calibration.py) a failure of the
    integration gives the vector of 1e10 over all observed years; there the
    optimizer is only reached with a table of at least one row, on which the
    initial condition solver cannot raise.  Both sentinels lie between 1e6
    and 1e10. *)
Theorem C4_residuos_centinela (solve_ivp : solve_ivp_t) (df : DataFrame)
    (params : ModeloParametros) (anio_ini anio_fin : Z)
    (t_inicial t_final : float) (verbose : Z) (x : vec4) :
  (falla_ensayo_core solve_ivp df params anio_ini anio_fin x ->
   core_calibration.residuals solve_ivp df params anio_ini anio_fin x
     = Ok (repeat 1e6%float (List.length (ventana df anio_ini anio_fin)))) /\
  (falla_ensayo_serie solve_ivp df params t_inicial t_final x ->
   calibration.residuos solve_ivp df (fijos_de params) (map T_obs df)
     (map Z2float (map anio df)) t_inicial t_final verbose x
     = Ok (repeat 1e10%float (List.length df))) /\
  (df <> [] ->
   exists r,
     calibration.residuos solve_ivp df (fijos_de params) (map T_obs df)
       (map Z2float (map anio df)) t_inicial t_final verbose x = Ok r /\
     List.length r = List.length df) /\
  (forall least_squares metodo,
     calibration.calibrar_parametros solve_ivp least_squares [] params metodo verbose
     = Raise (IndexError "index 0 is out of bounds for axis 0 with size 0")) /\
  es_centinela 1e6 = true /\ es_centinela 1e10 = true.
Proof.
  split; [apply residuals_falla|].
  split; [apply residuos_falla|].
  split.
  - destruct df as [|f resto]; [congruence|]. intros _. apply residuos_no_propaga.
  - split; [intros; apply calibrar_serie_vacia|]. split; reflexivity.
Qed.

Lemma C4_residuos_centinela_testigo :
  core_calibration.residuals Ejemplos.solver_fallido Ejemplos.df_3 Ejemplos.params_3
    2010 2011 (0.1, 0.5, 0.5, 1.0)%float
    = Ok [1e6; 1e6]%float /\
  core_calibration.residuals Ejemplos.solver_constante Ejemplos.df_3 Ejemplos.params_3
    2009 2011 (0.1, 0.5, 0.5, 1.0)%float
    = Ok [1e6; 1e6]%float /\
  calibration.residuos Ejemplos.solver_excepcion Ejemplos.df_3
    (fijos_de Ejemplos.params_3) [500; 520; 540]%float [2010; 2011; 2012]%float
    2010 2012 1 (0.1, 0.5, 0.5, 1.0)%float
    = Ok [1e10; 1e10; 1e10]%float.
Proof.
  split; [|split].
  - apply (proj1 (C4_residuos_centinela Ejemplos.solver_fallido Ejemplos.df_3
                    Ejemplos.params_3 2010 2011 2010 2012 1 (0.1, 0.5, 0.5, 1.0)%float)).
    reflexivity.
  - apply (proj1 (C4_residuos_centinela Ejemplos.solver_constante Ejemplos.df_3
                    Ejemplos.params_3 2009 2011 2010 2012 1 (0.1, 0.5, 0.5, 1.0)%float)).
    exact I.
  - apply (proj1 (proj2 (C4_residuos_centinela Ejemplos.solver_excepcion Ejemplos.df_3
                           Ejemplos.params_3 2010 2011 2010 2012 1
                           (0.1, 0.5, 0.5, 1.0)%float))).
    exact I.
Defined.

(** C5: the parameter record returned by either calibration has the
    [delta], [delta_s], [delta_n], [m], [phi] and [psi] of the input record;
    only [theta], [rho], [beta] and [gamma] are taken from the optimizer.
    The windowed calibration returns whenever the optimizer does. *)
Theorem C5_campos_fijos (solve_ivp : solve_ivp_t) (least_squares : least_squares_t)
    (str_float fmt_4f : float -> string) (df : DataFrame) (params : ModeloParametros)
    (anio_ini anio_fin num_theta num_gamma : Z)
    (progress_callback : option (Z -> unit)) (metodo : string) (verbose : Z) :
  (forall out,
     core_calibration.calibrar_parametros solve_ivp least_squares str_float fmt_4f
       df params anio_ini anio_fin num_theta num_gamma progress_callback = Ok out ->
     campos_fijos (fst (fst out)) = campos_fijos params) /\
  (forall out,
     calibration.calibrar_parametros solve_ivp least_squares df params metodo verbose
       = Ok out ->
     campos_fijos (fst out) = campos_fijos params /\
     (theta (fst out), rho (fst out), beta (fst out), gamma (fst out))
       = opt_x (snd out)) /\
  (forall r,
     least_squares
       (core_calibration.residuals solve_ivp df params anio_ini anio_fin)
       (delta_n params, 0.1, 0.3, 10.0)%float
       ((0.0, 0.0, 0.0, 0.0), (1.0, 1.0, 1.0, 20.0))%float
       (mkLsqOpciones "trf" 0 None None None None) = Ok r ->
     exists log_str,
       core_calibration.calibrar_parametros solve_ivp least_squares str_float fmt_4f
         df params anio_ini anio_fin num_theta num_gamma progress_callback
       = Ok (params_de_ensayo params (opt_x r), opt_cost r, log_str)).
Proof.
  split; [|split].
  - intros out. unfold core_calibration.calibrar_parametros.
    retorna como r.
    destruct (opt_x r) as [[[x_0 x_1] x_2] x_3]. intros [= <-]. reflexivity.
  - intros out. unfold calibration.calibrar_parametros.
    retorna como ti.
    retorna como tf.
    retorna como r.
    destruct (opt_x r) as [[[th rh] be] ga] eqn:Ex.
    retorna como [s x0].
    retorna como modelo.
    retorna como [[S_m T_m] R_m].
    intros [= <-]. cbn. rewrite Ex. split; reflexivity.
  - intros r Hr. unfold core_calibration.calibrar_parametros.
    rewrite Hr; cbn. unfold params_de_ensayo.
    destruct (opt_x r) as [[[x_0 x_1] x_2] x_3]. eexists. reflexivity.
Qed.

Lemma C5_campos_fijos_testigo :
  match core_calibration.calibrar_parametros Ejemplos.solver_constante
          Ejemplos.optimizador_x0 Ejemplos.sin_formato Ejemplos.sin_formato
          Ejemplos.df_3 Ejemplos.params_3 2010 2012 5 5 None with
  | Ok out => campos_fijos (fst (fst out)) = campos_fijos Ejemplos.params_3
  | Raise _ => False
  end /\
  match calibration.calibrar_parametros Ejemplos.solver_constante
          Ejemplos.optimizador_x0 Ejemplos.df_3 Ejemplos.params_3 "trf" 0 with
  | Ok out => campos_fijos (fst out) = campos_fijos Ejemplos.params_3
  | Raise _ => False
  end.
Proof.
  split.
  - destruct (core_calibration.calibrar_parametros Ejemplos.solver_constante
                Ejemplos.optimizador_x0 Ejemplos.sin_formato Ejemplos.sin_formato
                Ejemplos.df_3 Ejemplos.params_3 2010 2012 5 5 None) as [out|e] eqn:E.
    + exact (proj1 (C5_campos_fijos Ejemplos.solver_constante Ejemplos.optimizador_x0
                      Ejemplos.sin_formato Ejemplos.sin_formato Ejemplos.df_3
                      Ejemplos.params_3 2010 2012 5 5 None "trf" 0) out E).
    + vm_compute in E. discriminate E.
  - destruct (calibration.calibrar_parametros Ejemplos.solver_constante
                Ejemplos.optimizador_x0 Ejemplos.df_3 Ejemplos.params_3 "trf" 0)
      as [out|e] eqn:E.
    + exact (proj1 (proj1 (proj2 (C5_campos_fijos Ejemplos.solver_constante
                      Ejemplos.optimizador_x0 Ejemplos.sin_formato Ejemplos.sin_formato
                      Ejemplos.df_3 Ejemplos.params_3 2010 2012 5 5 None "trf" 0))
                      out E)).
    + vm_compute in E. discriminate E.
Defined.

(** C10: the result of the windowed [calibrar_parametros] does not depend on
    [num_theta] and [num_gamma]: for the same table, base parameters and
    window, any two values of these arguments give the same
    (parameters, cost, message) result, or the same failure.  Whatever their
    values, the optimizer is started from the fixed point
    [(delta_n, 0.1, 0.3, 10.0)] within the fixed bounds [[0, 1]] for
    [theta], [rho], [beta] and [[0, 20]] for [gamma], and its answer alone
    decides the result. *)
Theorem C10_num_theta_num_gamma_sin_efecto (solve_ivp : solve_ivp_t)
    (least_squares : least_squares_t) (str_float fmt_4f : float -> string)
    (df : DataFrame) (params_base : ModeloParametros) (anio_ini anio_fin : Z)
    (num_theta num_gamma num_theta' num_gamma' : Z)
    (progress_callback : option (Z -> unit)) :
  core_calibration.calibrar_parametros solve_ivp least_squares str_float fmt_4f
    df params_base anio_ini anio_fin num_theta num_gamma progress_callback
  = core_calibration.calibrar_parametros solve_ivp least_squares str_float fmt_4f
      df params_base anio_ini anio_fin num_theta' num_gamma' progress_callback /\
  match least_squares
          (core_calibration.residuals solve_ivp df params_base anio_ini anio_fin)
          (delta_n params_base, 0.1, 0.3, 10.0)%float
          ((0.0, 0.0, 0.0, 0.0), (1.0, 1.0, 1.0, 20.0))%float
          (mkLsqOpciones "trf" 0 None None None None) with
  | Raise e =>
      core_calibration.calibrar_parametros solve_ivp least_squares str_float fmt_4f
        df params_base anio_ini anio_fin num_theta num_gamma progress_callback
      = Raise e
  | Ok r =>
      exists log_str,
        core_calibration.calibrar_parametros solve_ivp least_squares str_float fmt_4f
          df params_base anio_ini anio_fin num_theta num_gamma progress_callback
        = Ok (params_de_ensayo params_base (opt_x r), opt_cost r, log_str)
  end.
Proof.
  split; [reflexivity|].
  unfold core_calibration.calibrar_parametros.
  destruct (least_squares _ _ _ _) as [r|e]; cbn; [|reflexivity].
  unfold params_de_ensayo.
  destruct (opt_x r) as [[[x_0 x_1] x_2] x_3]. eexists. reflexivity.
Qed.

(** * Further properties of the code *)

(** ** More facts about binary64 comparison *)

Lemma ltb_no_nan (a b : float) :
  (a <? b)%float = true -> is_nan a = false /\ is_nan b = false.
Proof.
  rewrite FloatAxioms.ltb_spec. unfold SFltb. intros H. split.
  - destruct (is_nan a) eqn:E; [|reflexivity].
    apply is_nan_Prim2SF in E. rewrite E in H. discriminate H.
  - destruct (is_nan b) eqn:E; [|reflexivity].
    apply is_nan_Prim2SF in E. rewrite E in H.
    destruct (Prim2SF a); discriminate H.
Qed.

Lemma ltb_asim (a b : float) : (a <? b)%float = true -> (b <? a)%float = false.
Proof.
  rewrite !FloatAxioms.ltb_spec. unfold SFltb.
  rewrite (SFcompare_opuesto (Prim2SF a) (Prim2SF b)).
  destruct (SFcompare (Prim2SF a) (Prim2SF b)) as [[]|]; cbn; congruence.
Qed.

Lemma ltb_irrefl (a : float) : (a <? a)%float = false.
Proof.
  destruct (a <? a)%float eqn:E; [|reflexivity].
  pose proof (ltb_asim _ _ E). congruence.
Qed.

Lemma ltb_leb_false (a b : float) : (a <? b)%float = true -> (b <=? a)%float = false.
Proof.
  rewrite FloatAxioms.ltb_spec, FloatAxioms.leb_spec. unfold SFltb, SFleb.
  rewrite (SFcompare_opuesto (Prim2SF a) (Prim2SF b)).
  destruct (SFcompare (Prim2SF a) (Prim2SF b)) as [[]|]; cbn; congruence.
Qed.

Lemma eqb_refl_no_nan (a : float) : is_nan a = false -> (a =? a)%float = true.
Proof. unfold is_nan. now destruct (a =? a)%float. Qed.

(** ** The interpolated population *)

Lemma interp_tramos_nudo (x f : float) (xp' : list float) :
  forall (fp' : list float) (x0 f0 : float) (k : nat),
    creciente (x0 :: xp') ->
    List.length fp' = List.length xp' ->
    nth_error (x0 :: xp') k = Some x ->
    nth_error (f0 :: fp') k = Some f ->
    interp_tramos x x0 f0 xp' fp' = f.
Proof.
  induction xp' as [|x1 xp'' IH]; intros fp' x0 f0 k Hs Hl Hx Hf.
  - destruct fp'; [|discriminate]. destruct k as [|[|k]]; cbn in *; congruence.
  - destruct fp' as [|f1 fp'']; [discriminate|]. injection Hl as Hl.
    apply StronglySorted_inv in Hs. destruct Hs as [Hs1 H0].
    destruct k as [|k]; cbn in Hx, Hf.
    + injection Hx as <-. injection Hf as <-. cbn.
      apply Forall_inv in H0. rewrite H0.
      rewrite eqb_refl_no_nan; [reflexivity|]. now apply ltb_no_nan in H0.
    + cbn. assert (Hno : (x <? x1)%float = false).
      { destruct k as [|k]; cbn in Hx.
        - injection Hx as <-. apply ltb_irrefl.
        - apply StronglySorted_inv in Hs1. destruct Hs1 as [_ H1].
          apply nth_error_In in Hx. rewrite Forall_forall in H1.
          apply ltb_asim. now apply H1. }
      rewrite Hno. now apply (IH fp'' x1 f1 k).
Qed.

Lemma np_interp_nudo (xp fp : list float) (k : nat) (x f : float) :
  creciente xp ->
  List.length fp = List.length xp ->
  nth_error xp k = Some x ->
  nth_error fp k = Some f ->
  np_interp x xp fp = Ok f.
Proof.
  intros Hs Hl Hx Hf.
  destruct xp as [|x0 xp']; [destruct k; discriminate|].
  destruct fp as [|f0 fp']; [discriminate|]. injection Hl as Hl.
  unfold np_interp. rewrite Hl, Nat.eqb_refl. cbn [negb].
  destruct xp' as [|x1 xp''].
  - destruct k as [|[|k]]; cbn in *; congruence.
  - assert (Hx0 : (x <? x0)%float = false /\ is_nan x = false).
    { pose proof Hs as Hs'. apply StronglySorted_inv in Hs'. destruct Hs' as [_ H0].
      destruct k as [|k]; cbn in Hx.
      - injection Hx as <-. split; [apply ltb_irrefl|].
        apply Forall_inv in H0. now apply ltb_no_nan in H0.
      - apply nth_error_In in Hx. rewrite Forall_forall in H0.
        specialize (H0 _ Hx). split; [now apply ltb_asim|].
        now apply ltb_no_nan in H0. }
    destruct Hx0 as [-> ->]. f_equal.
    now apply (interp_tramos_nudo x f (x1 :: xp'') fp' x0 f0 k).
Qed.

(** X1: on a series whose sample years are strictly increasing, the
    interpolated population at a sample year is exactly the population
    sampled for that year, in both classes. *)
Theorem X1_P_t_en_nudo (p : ModeloParametros) (anios P : list float)
    (series_anio : list Z) (k : nat) (x f : float) :
  List.length P = List.length anios ->
  creciente anios ->
  nth_error anios k = Some x ->
  nth_error P k = Some f ->
  ModeloNoLineal.P_t (ModeloNoLineal.mk p anios P) x = Ok f /\
  (anios = map Z2float series_anio ->
   ModeloSuicidio.P_t (ModeloSuicidio.mk p P series_anio) x = Ok f).
Proof.
  intros Hl Hs Hx Hf. split.
  - now apply (np_interp_nudo anios P k).
  - intros ->. now apply (np_interp_nudo (map Z2float series_anio) P k).
Qed.

Lemma X1_P_t_en_nudo_testigo :
  ModeloNoLineal.P_t Ejemplos.mn_3 2011 = Ok 101000%float /\
  ModeloSuicidio.P_t Ejemplos.ms_3 2011 = Ok 101000%float.
Proof.
  assert (Hs : creciente [2010; 2011; 2012]%float).
  { repeat constructor. }
  destruct (X1_P_t_en_nudo Ejemplos.params_3 [2010; 2011; 2012]%float
              [100000; 101000; 102000]%float [2010; 2011; 2012]%Z 1
              2011%float 101000%float eq_refl Hs eq_refl eq_refl) as [H1 H2].
  split; [exact H1|exact (H2 eq_refl)].
Defined.

Lemma last_no_vacia {A : Type} (l : list A) (a d d' : A) :
  last (a :: l) d = last (a :: l) d'.
Proof.
  revert a. induction l as [|b l IH]; intros a; [reflexivity|].
  change (last (b :: l) d = last (b :: l) d'). apply IH.
Qed.

Lemma interp_tramos_derecha (x : float) (xp' : list float) :
  forall (fp' : list float) (x0 f0 : float),
    List.length fp' = List.length xp' ->
    (forall a, In a xp' -> (x <? a)%float = false) ->
    interp_tramos x x0 f0 xp' fp' = last fp' f0.
Proof.
  induction xp' as [|x1 xp'' IH]; intros fp' x0 f0 Hl Hno.
  - destruct fp'; [reflexivity|discriminate].
  - destruct fp' as [|f1 fp'']; [discriminate|]. injection Hl as Hl.
    cbn [interp_tramos]. rewrite (Hno x1 (or_introl eq_refl)).
    rewrite (IH fp'' x1 f1 Hl); [|intros a Ha; apply Hno; now right].
    destruct fp'' as [|f2 fp3]; [reflexivity|].
    change (last (f2 :: fp3) f1 = last (f2 :: fp3) f0). apply last_no_vacia.
Qed.

(** X2: on a series whose sample years are strictly increasing, the
    interpolated population is held at the boundary sample outside the
    sampled range, in both classes: a time below the first sample year
    gives the first population, a time below no sample year gives the last
    one.  Nothing is extrapolated. *)
Theorem X2_P_t_fuera_de_rango (p : ModeloParametros) (x0 f0 : float)
    (xp' fp' : list float) (series_anio : list Z) (t : float) :
  creciente (x0 :: xp') ->
  List.length fp' = List.length xp' ->
  is_nan t = false ->
  ((t <? x0)%float = true ->
   ModeloNoLineal.P_t (ModeloNoLineal.mk p (x0 :: xp') (f0 :: fp')) t = Ok f0 /\
   (x0 :: xp' = map Z2float series_anio ->
    ModeloSuicidio.P_t (ModeloSuicidio.mk p (f0 :: fp') series_anio) t = Ok f0)) /\
  ((forall a, In a (x0 :: xp') -> (t <? a)%float = false) ->
   ModeloNoLineal.P_t (ModeloNoLineal.mk p (x0 :: xp') (f0 :: fp')) t
     = Ok (last fp' f0) /\
   (x0 :: xp' = map Z2float series_anio ->
    ModeloSuicidio.P_t (ModeloSuicidio.mk p (f0 :: fp') series_anio) t
      = Ok (last fp' f0))).
Proof.
  intros _ Hl Hn.
  assert (Hizq : (t <? x0)%float = true -> np_interp t (x0 :: xp') (f0 :: fp') = Ok f0).
  { intros Hlt. unfold np_interp. rewrite Hl, Nat.eqb_refl. cbn [negb].
    destruct xp'; [reflexivity|]. now rewrite Hn, Hlt. }
  assert (Hder : (forall a, In a (x0 :: xp') -> (t <? a)%float = false) ->
                 np_interp t (x0 :: xp') (f0 :: fp') = Ok (last fp' f0)).
  { intros Hno. unfold np_interp. rewrite Hl, Nat.eqb_refl. cbn [negb].
    destruct xp' as [|x1 xp''].
    - destruct fp'; [reflexivity|discriminate].
    - rewrite Hn, (Hno x0 (or_introl eq_refl)). f_equal.
      apply interp_tramos_derecha; [exact Hl|]. intros a Ha. apply Hno. now right. }
  split; intros H; (split; [|intros E; unfold ModeloSuicidio.P_t; cbn; rewrite <- E]);
    auto.
Qed.

Lemma X2_P_t_fuera_de_rango_testigo :
  ModeloNoLineal.P_t Ejemplos.mn_3 1999.5 = Ok 100000%float /\
  ModeloSuicidio.P_t Ejemplos.ms_3 2050 = Ok 102000%float.
Proof.
  assert (Hs : creciente [2010; 2011; 2012]%float).
  { repeat constructor. }
  pose proof (X2_P_t_fuera_de_rango Ejemplos.params_3 2010 100000 [2011; 2012]%float
                [101000; 102000]%float [2010; 2011; 2012]%Z 1999.5
                Hs eq_refl eq_refl) as [H1 _].
  pose proof (X2_P_t_fuera_de_rango Ejemplos.params_3 2010 100000 [2011; 2012]%float
                [101000; 102000]%float [2010; 2011; 2012]%Z 2050
                Hs eq_refl eq_refl) as [_ H2].
  split.
  - exact (proj1 (H1 eq_refl)).
  - apply (proj2 (H2 ltac:(intros a [<-|[<-|[<-|[]]]]; reflexivity))). reflexivity.
Defined.

(** ** The constructor of [ModeloSuicidio] *)

Lemma insertar_perm (a : Z) (p : float) (l : list (Z * float)) :
  Permutation (ModeloSuicidio.insertar a p l) ((a, p) :: l).
Proof.
  induction l as [|[a' p'] l IH]; cbn; [reflexivity|].
  destruct (a <=? a')%Z; [reflexivity|].
  rewrite IH. apply perm_swap.
Qed.

Lemma ordenar_perm (l : list (Z * float)) : Permutation (ModeloSuicidio.ordenar l) l.
Proof.
  induction l as [|[a p] l IH]; cbn; [reflexivity|].
  rewrite insertar_perm. now constructor.
Qed.

Lemma insertar_ordenada (a : Z) (p : float) (l : list (Z * float)) :
  Sorted por_anio l -> Sorted por_anio (ModeloSuicidio.insertar a p l).
Proof.
  induction l as [|[a' p'] l IH]; cbn; intros Hs.
  - repeat constructor.
  - destruct (a <=? a')%Z eqn:E.
    + constructor; [exact Hs|]. constructor. unfold por_anio; cbn. lia.
    + apply Sorted_inv in Hs. destruct Hs as [Hs Hd].
      constructor; [now apply IH|].
      destruct l as [|[a'' p''] l']; cbn.
      * constructor. unfold por_anio; cbn. lia.
      * destruct (a <=? a'')%Z.
        -- constructor. unfold por_anio; cbn. lia.
        -- constructor. now apply HdRel_inv in Hd.
Qed.

Lemma ordenar_ordenada (l : list (Z * float)) : Sorted por_anio (ModeloSuicidio.ordenar l).
Proof.
  induction l as [|[a p] l IH]; cbn; [constructor|now apply insertar_ordenada].
Qed.

Lemma Sorted_map_fst (l : list (Z * float)) :
  Sorted por_anio l -> Sorted Z.le (map fst l).
Proof.
  induction 1 as [|u l Hs IH Hd]; cbn; constructor; [exact IH|].
  destruct Hd; cbn; constructor. assumption.
Qed.

Lemma combine_fst_snd {A B : Type} (l : list (A * B)) :
  combine (map fst l) (map snd l) = l.
Proof. induction l as [|[a b] l IH]; cbn; [reflexivity|now rewrite IH]. Qed.

Lemma combine_map_snd {A B : Type} (l1 : list A) (l2 : list B) :
  List.length l1 = List.length l2 -> map snd (combine l1 l2) = l2.
Proof.
  revert l2. induction l1 as [|a l1 IH]; intros [|b l2]; cbn; try discriminate;
    [reflexivity|]. intros [= H]. now rewrite IH.
Qed.

(** X3: the constructor of [ModeloSuicidio] raises [ValueError] when the
    two series differ in length; otherwise it returns a model with the given
    parameters whose years are in non-decreasing order and whose
    (year, population) pairs are a rearrangement of the pairs it was given,
    so every population stays with its year. *)
Theorem X3_init_ordena (parametros : ModeloParametros) (series_P : list float)
    (series_anio : list Z) :
  (List.length series_P <> List.length series_anio ->
   ModeloSuicidio.init parametros series_P series_anio
     = Raise (ValueError "series_P y series_anio deben tener la misma longitud")) /\
  (List.length series_P = List.length series_anio ->
   exists modelo,
     ModeloSuicidio.init parametros series_P series_anio = Ok modelo /\
     ModeloSuicidio.param modelo = parametros /\
     List.length (ModeloSuicidio.series_P modelo)
       = List.length (ModeloSuicidio.series_anio modelo) /\
     Sorted Z.le (ModeloSuicidio.series_anio modelo) /\
     Permutation
       (combine (ModeloSuicidio.series_anio modelo) (ModeloSuicidio.series_P modelo))
       (combine series_anio series_P)).
Proof.
  unfold ModeloSuicidio.init. split; intros H.
  - apply Nat.eqb_neq in H. now rewrite H.
  - rewrite H, Nat.eqb_refl. cbn. eexists. split; [reflexivity|]. cbn.
    split; [reflexivity|]. split; [now rewrite !length_map|].
    split; [apply Sorted_map_fst, ordenar_ordenada|].
    rewrite combine_fst_snd. apply ordenar_perm.
Qed.

Lemma X3_init_ordena_testigo :
  exists modelo,
    ModeloSuicidio.init Ejemplos.params_3 [102000; 100000; 101000]%float
      [2012; 2010; 2011]%Z = Ok modelo /\
    Sorted Z.le (ModeloSuicidio.series_anio modelo) /\
    ModeloSuicidio.init Ejemplos.params_3 [102000; 100000]%float [2012; 2010; 2011]%Z
      = Raise (ValueError "series_P y series_anio deben tener la misma longitud").
Proof.
  destruct (proj2 (X3_init_ordena Ejemplos.params_3 [102000; 100000; 101000]%float
                     [2012; 2010; 2011]%Z) eq_refl)
    as (modelo & Hm & _ & _ & Hs & _).
  exists modelo. split; [exact Hm|]. split; [exact Hs|].
  apply (proj1 (X3_init_ordena Ejemplos.params_3 [102000; 100000]%float
                  [2012; 2010; 2011]%Z)).
  cbn. discriminate.
Defined.

Lemma ordenar_combine_ordenado (series_anio : list Z) :
  forall series_P : list float,
    Sorted Z.le series_anio ->
    ModeloSuicidio.ordenar (combine series_anio series_P) = combine series_anio series_P.
Proof.
  induction series_anio as [|a sA IH]; intros [|p sP] Hs; try reflexivity.
  apply Sorted_inv in Hs. destruct Hs as [Hs Hd].
  cbn [combine ModeloSuicidio.ordenar fold_right fst snd].
  change (fold_right _ [] (combine sA sP)) with (ModeloSuicidio.ordenar (combine sA sP)).
  rewrite (IH sP Hs).
  destruct sA as [|a' sA']; [reflexivity|]. destruct sP as [|p' sP']; [reflexivity|].
  cbn. apply HdRel_inv in Hd. apply Z.leb_le in Hd. now rewrite Hd.
Qed.

Lemma Sorted_lt_le (l : list Z) : Sorted Z.lt l -> Sorted Z.le l.
Proof.
  induction 1 as [|a l Hs IH Hd]; constructor; [exact IH|].
  destruct Hd; constructor. lia.
Qed.

(** X4: on a table whose years are already strictly increasing the
    constructor of [ModeloSuicidio] keeps both series exactly as given. *)
Theorem X4_init_ya_ordenado (parametros : ModeloParametros) (series_P : list float)
    (series_anio : list Z) :
  List.length series_P = List.length series_anio ->
  Sorted Z.lt series_anio ->
  ModeloSuicidio.init parametros series_P series_anio
    = Ok (ModeloSuicidio.mk parametros series_P series_anio).
Proof.
  intros Hl Hs. unfold ModeloSuicidio.init. rewrite Hl, Nat.eqb_refl. cbn.
  rewrite (ordenar_combine_ordenado series_anio series_P (Sorted_lt_le _ Hs)).
  now rewrite combine_map_snd, combine_map_fst.
Qed.

Lemma X4_init_ya_ordenado_testigo :
  ModeloSuicidio.init Ejemplos.params_3 [100000; 101000; 102000]%float
    [2010; 2011; 2012]%Z = Ok Ejemplos.ms_3.
Proof.
  apply (X4_init_ya_ordenado Ejemplos.params_3 [100000; 101000; 102000]%float
           [2010; 2011; 2012]%Z eq_refl).
  repeat constructor.
Defined.

(** X5: a [ModeloSuicidio] built by its constructor from a series with at
    least one year never fails to interpolate: [P_t] returns a population and
    [rhs] a derivative vector at every time and state. *)
Theorem X5_init_luego_rhs_no_falla (parametros : ModeloParametros)
    (series_P : list float) (series_anio : list Z) (modelo : ModeloSuicidio.t)
    (t : float) (y : vec3) :
  ModeloSuicidio.init parametros series_P series_anio = Ok modelo ->
  series_anio <> [] ->
  (exists P, ModeloSuicidio.P_t modelo t = Ok P) /\
  (exists dy, ModeloSuicidio.rhs modelo t y = Ok dy).
Proof.
  intros Hi Hne.
  assert (HP : exists P, ModeloSuicidio.P_t modelo t = Ok P).
  { unfold ModeloSuicidio.init in Hi.
    destruct (Nat.eqb (List.length series_P) (List.length series_anio)) eqn:El;
      cbn in Hi; [|discriminate].
    apply Nat.eqb_eq in El. injection Hi as <-.
    unfold ModeloSuicidio.P_t; cbn.
    pose proof (Permutation_length (ordenar_perm (combine series_anio series_P))) as Hlen.
    rewrite length_combine, <- El, Nat.min_id in Hlen.
    destruct (ModeloSuicidio.ordenar (combine series_anio series_P)) as [|[a p] l].
    - destruct series_anio; [congruence|]. cbn in Hlen. rewrite El in Hlen. discriminate.
    - cbn. rewrite !length_map, Nat.eqb_refl. cbn.
      destruct (map Z2float (map fst l)); eauto. }
  split; [exact HP|]. destruct HP as [P HP].
  rewrite rhs_ModeloSuicidio_espec. unfold divisor_ModeloSuicidio. rewrite HP. cbn. eauto.
Qed.

Lemma X5_init_luego_rhs_no_falla_testigo :
  (exists P, ModeloSuicidio.P_t Ejemplos.ms_3 2010.5 = Ok P) /\
  (exists dy, ModeloSuicidio.rhs Ejemplos.ms_3 2010.5 (99250, 500, 250)%float = Ok dy).
Proof.
  apply (X5_init_luego_rhs_no_falla Ejemplos.params_3 [100000; 101000; 102000]%float
           [2010; 2011; 2012]%Z Ejemplos.ms_3 2010.5 (99250, 500, 250)%float eq_refl).
  discriminate.
Defined.


(** ** The objective of the windowed calibration *)

(** X6: the objective function of the windowed calibration never raises:
    for every solver, table, window and trial point it returns a residual
    vector with exactly one entry per observed year of the window (so an
    empty vector when the window holds no observed year). *)
Theorem X6_residuals_total (solve_ivp : solve_ivp_t) (df : DataFrame)
    (params_base : ModeloParametros) (anio_ini anio_fin : Z) (x : vec4) :
  exists r,
    core_calibration.residuals solve_ivp df params_base anio_ini anio_fin x = Ok r /\
    List.length r = List.length (ventana df anio_ini anio_fin).
Proof.
  unfold core_calibration.residuals, ventana. destruct x as [[[th rh] be] ga].
  set (w := filter _ df).
  assert (Hc : List.length (full_like (map T_obs w) 1e6) = List.length w).
  { now rewrite full_like_repeat, repeat_length, length_map. }
  destruct (core_analysis.condiciones_iniciales df _ anio_ini) as [x0|e]; [|eauto].
  destruct (solve_ivp _ _ _ _ _ _) as [sol|e]; [|eauto].
  destruct (negb (ode_status sol =? 0)%Z || negb (ode_success sol)); [eauto|].
  destruct (Nat.eqb _ _) eqn:El; cbn [negb]; [|eauto].
  apply Nat.eqb_eq in El. eexists. split; [reflexivity|].
  unfold resta. rewrite length_map, length_combine, El, Nat.min_id.
  apply length_map.
Qed.

(** ** The whole-series calibrations *)

(** X7: the whole-series [calibrar_parametros] integrates once more at the
    optimum after the optimizer has returned, outside any handler: if that
    integration fails the call raises and the optimizer's result is lost; if
    it succeeds the call returns the base record with the optimizer's four
    values, together with the optimizer's result. *)
Theorem X7_calibrar_reintegra (solve_ivp : solve_ivp_t) (least_squares : least_squares_t)
    (df : DataFrame) (params : ModeloParametros) (metodo : string) (verbose : Z)
    (t_inicial t_final : float) (r : OptimizeResult)
    (salida : list linea) (x0_cond : vec3) (modelo : ModeloSuicidio.t) :
  np_primero (map Z2float (map anio df)) = Ok t_inicial ->
  np_ultimo (map Z2float (map anio df)) = Ok t_final ->
  least_squares
    (calibration.residuos solve_ivp df (fijos_de params) (map T_obs df)
       (map Z2float (map anio df)) t_inicial t_final verbose)
    (theta params, rho params, beta params, gamma params)
    ((0.0, 0.0, 0.0, 0.0)%float, (infinity, infinity, 1.0%float, infinity))
    (mkLsqOpciones metodo verbose (Some 1000%Z)
       (Some 1e-8%float) (Some 1e-8%float) (Some 1e-8%float)) = Ok r ->
  analysis.condiciones_iniciales df (params_de_ensayo params (opt_x r))
    = Ok (salida, x0_cond) ->
  ModeloSuicidio.init (params_de_ensayo params (opt_x r))
    (map Poblacion_10ymas_P df) (map anio df) = Ok modelo ->
  (forall e,
     ModeloSuicidio.evaluar_en_puntos solve_ivp modelo t_inicial t_final x0_cond
       (map Z2float (map anio df)) = Raise e ->
     calibration.calibrar_parametros solve_ivp least_squares df params metodo verbose
       = Raise e) /\
  (forall v,
     ModeloSuicidio.evaluar_en_puntos solve_ivp modelo t_inicial t_final x0_cond
       (map Z2float (map anio df)) = Ok v ->
     calibration.calibrar_parametros solve_ivp least_squares df params metodo verbose
       = Ok (params_de_ensayo params (opt_x r), r)).
Proof.
  intros Hi Hf Hr Hci Hm.
  unfold calibration.calibrar_parametros. rewrite Hi; cbn [bind]. rewrite Hf; cbn [bind].
  change (calibration.mkParamsFijos (delta params) (delta_s params) (delta_n params)
            (m params) (phi params) (psi params)) with (fijos_de params).
  rewrite Hr; cbn [bind].
  unfold params_de_ensayo in *. destruct (opt_x r) as [[[th rh] be] ga].
  unfold calibration.ModeloParametros_de, fijos_de; cbn.
  rewrite Hci; cbn [bind]. rewrite Hm; cbn [bind].
  split; intros ? He; rewrite He; [reflexivity|].
  destruct v as [[S_m T_m] R_m]. reflexivity.
Qed.

Lemma X7_calibrar_reintegra_testigo :
  calibration.calibrar_parametros Ejemplos.solver_fallido Ejemplos.optimizador_x0
    Ejemplos.df_3 Ejemplos.params_3 "trf" 0
  = Raise (RuntimeError
             "La integracion fallo: Required step size is less than spacing between numbers.").
Proof.
  refine (proj1 (X7_calibrar_reintegra Ejemplos.solver_fallido Ejemplos.optimizador_x0
                   Ejemplos.df_3 Ejemplos.params_3 "trf" 0 2010 2012
                   (mkOptimizeResult (0.1, 0.5, 0.5, 1.0)%float 1.5e20%float
                      "`gtol` termination condition is satisfied." true 1)
                   _ (99250, 500, 250)%float Ejemplos.ms_3
                   eq_refl eq_refl _ _ _) _ _).
  - vm_compute. reflexivity.
  - vm_compute. reflexivity.
  - vm_compute. reflexivity.
  - vm_compute. reflexivity.
Defined.

Lemma residuos_restricciones_igual (solve_ivp : solve_ivp_t) (df : DataFrame)
    (params_fijos : calibration.ParamsFijos) (T_obs t_puntos : list float)
    (t_inicial t_final : float) (verbose : Z) (x : vec4) :
  calibration_restricciones.residuos solve_ivp df params_fijos T_obs t_puntos
    t_inicial t_final x
  = calibration.residuos solve_ivp df params_fijos T_obs t_puntos
      t_inicial t_final verbose x.
Proof.
  unfold calibration_restricciones.residuos, calibration.residuos.
  destruct x as [[[th rh] be] ga].
  destruct (analysis.condiciones_iniciales df _) as [[s x0]|e]; [|reflexivity]. cbn.
  destruct (ModeloSuicidio.init _ _ _) as [modelo|e]; [|reflexivity]. cbn.
  destruct (ModeloSuicidio.evaluar_en_puntos _ _ _ _ _ _) as [[[S_m T_m] R_m]|e];
    reflexivity.
Qed.

(** X8: [calibrar_con_restricciones] minimises the same objective as
    [calibrar_parametros], within the given bounds (or, for a bound left
    out, [[0, inf)] for [theta], [rho], [gamma] and [[0, 1]] for [beta]).
    Unlike [calibrar_parametros] it does not integrate again at the optimum:
    on a table with at least one row it returns whenever the optimizer
    does, with the six fixed fields of the input record and the optimizer's
    four values.  Without a row it raises [IndexError]. *)
Theorem X8_calibrar_con_restricciones (solve_ivp : solve_ivp_t)
    (least_squares : least_squares_t) (df : DataFrame) (params : ModeloParametros)
    (theta_bounds rho_bounds beta_bounds gamma_bounds : option (float * float))
    (metodo : string) (verbose : Z) (t_inicial t_final : float) :
  (forall x verbose',
     calibration_restricciones.residuos solve_ivp df (fijos_de params)
       (map T_obs df) (map Z2float (map anio df)) t_inicial t_final x
     = calibration.residuos solve_ivp df (fijos_de params)
         (map T_obs df) (map Z2float (map anio df)) t_inicial t_final verbose' x) /\
  (np_primero (map Z2float (map anio df)) = Ok t_inicial ->
   np_ultimo (map Z2float (map anio df)) = Ok t_final ->
   forall r,
     least_squares
       (calibration_restricciones.residuos solve_ivp df (fijos_de params)
          (map T_obs df) (map Z2float (map anio df)) t_inicial t_final)
       (theta params, rho params, beta params, gamma params)
       ((fst (o_defecto (0.0%float, infinity) theta_bounds),
         fst (o_defecto (0.0%float, infinity) rho_bounds),
         fst (o_defecto (0.0, 1.0)%float beta_bounds),
         fst (o_defecto (0.0%float, infinity) gamma_bounds)),
        (snd (o_defecto (0.0%float, infinity) theta_bounds),
         snd (o_defecto (0.0%float, infinity) rho_bounds),
         snd (o_defecto (0.0, 1.0)%float beta_bounds),
         snd (o_defecto (0.0%float, infinity) gamma_bounds)))
       (mkLsqOpciones metodo verbose (Some 1000%Z) None None None) = Ok r ->
     calibration_restricciones.calibrar_con_restricciones solve_ivp least_squares
       df params theta_bounds rho_bounds beta_bounds gamma_bounds metodo verbose
     = Ok (params_de_ensayo params (opt_x r), r)) /\
  (forall out,
     calibration_restricciones.calibrar_con_restricciones solve_ivp least_squares
       df params theta_bounds rho_bounds beta_bounds gamma_bounds metodo verbose
     = Ok out ->
     campos_fijos (fst out) = campos_fijos params) /\
  calibration_restricciones.calibrar_con_restricciones solve_ivp least_squares
    [] params theta_bounds rho_bounds beta_bounds gamma_bounds metodo verbose
  = Raise (IndexError "index 0 is out of bounds for axis 0 with size 0").
Proof.
  split; [intros; apply residuos_restricciones_igual|].
  split; [|split; [|reflexivity]].
  - intros Hi Hf r Hr.
    unfold calibration_restricciones.calibrar_con_restricciones.
    rewrite Hi; cbn [bind]. rewrite Hf; cbn [bind].
    unfold o_defecto, fijos_de in Hr.
    destruct theta_bounds, rho_bounds, beta_bounds, gamma_bounds;
      rewrite Hr; cbn [bind]; unfold params_de_ensayo;
      destruct (opt_x r) as [[[th rh] be] ga]; reflexivity.
  - intros out. unfold calibration_restricciones.calibrar_con_restricciones.
    retorna como ti. retorna como tf. retorna como r.
    destruct (opt_x r) as [[[th rh] be] ga]. intros [= <-]. reflexivity.
Qed.

Lemma X8_calibrar_con_restricciones_testigo :
  calibration_restricciones.calibrar_con_restricciones Ejemplos.solver_fallido
    Ejemplos.optimizador_x0 Ejemplos.df_3 Ejemplos.params_3
    None None (Some (0.2, 0.8)%float) None "trf" 0
  = Ok (Ejemplos.params_3,
        mkOptimizeResult (0.1, 0.5, 0.5, 1.0)%float 1.5e20%float
          "`gtol` termination condition is satisfied." true 1).
Proof.
  refine (proj1 (proj2 (X8_calibrar_con_restricciones Ejemplos.solver_fallido
                          Ejemplos.optimizador_x0 Ejemplos.df_3 Ejemplos.params_3
                          None None (Some (0.2, 0.8)%float) None "trf" 0 2010 2012))
            eq_refl eq_refl
            (mkOptimizeResult (0.1, 0.5, 0.5, 1.0)%float 1.5e20%float
               "`gtol` termination condition is satisfied." true 1) _).
  vm_compute. reflexivity.
Defined.

(** ** Linear relations *)

(** X9: the initial state of the windowed solver at year [anio_ini] is the
    row of that year in the linear series of [construir_series_lineales]
    built with the same [m] and [phi] (whatever [psi], which that function
    does not use): [(S0, T0, R0) = (S_lin, T_lin, R_lin)].  Both have no
    such row in the same cases.  The linear series keeps the rows of the
    table, in order. *)
Theorem X9_estado_inicial_es_serie_lineal (df : DataFrame) (params : ModeloParametros)
    (anio_ini : Z) (psi : float) :
  core_analysis.condiciones_iniciales df params anio_ini =
    match find (fun r => (anio (linear_relations.fila r) =? anio_ini)%Z)
            (linear_relations.construir_series_lineales df (m params) (phi params) psi)
    with
    | Some r =>
        Ok (linear_relations.S_lin r, linear_relations.T_lin r, linear_relations.R_lin r)
    | None => Raise (ValueError ("No hay datos para el anio " ++ str_Z anio_ini)%string)
    end /\
  map linear_relations.fila
    (linear_relations.construir_series_lineales df (m params) (phi params) psi) = df.
Proof.
  split.
  - unfold core_analysis.condiciones_iniciales,
      linear_relations.construir_series_lineales.
    induction df as [|f df IH]; cbn; [reflexivity|].
    destruct (anio f =? anio_ini)%Z; [reflexivity|]. exact IH.
  - unfold linear_relations.construir_series_lineales. rewrite map_map. cbn.
    apply map_id.
Qed.

Lemma leb_no_nan (a b : float) :
  (a <=? b)%float = true -> is_nan a = false /\ is_nan b = false.
Proof.
  rewrite FloatAxioms.leb_spec. unfold SFleb. intros H. split.
  - destruct (is_nan a) eqn:E; [|reflexivity].
    apply is_nan_Prim2SF in E. rewrite E in H. discriminate H.
  - destruct (is_nan b) eqn:E; [|reflexivity].
    apply is_nan_Prim2SF in E. rewrite E in H.
    destruct (Prim2SF a); discriminate H.
Qed.

(** X10: the two ways of deriving [psi = 1 - m - phi*m] agree on the pair
    they return and differ in how they report a bad value.  Whenever
    [estimar_phi_psi] returns a pair, [calcular_phi_psi] returns the same
    pair; where [estimar_phi_psi] raises (a negative [psi]),
    [calcular_phi_psi] still returns the pair and prints a warning.  A [psi]
    that is NaN is returned silently by [estimar_phi_psi] and with a warning
    by [calcular_phi_psi]. *)
Theorem X10_phi_psi (fmt_6f : float -> string) (m phi : float) :
  (forall v, parameters.estimar_phi_psi fmt_6f m phi = Ok v ->
     snd (linear_relations.calcular_phi_psi m phi) = v) /\
  (forall e, parameters.estimar_phi_psi fmt_6f m phi = Raise e ->
     exists aviso,
       linear_relations.calcular_phi_psi m phi
         = ([aviso], (phi, (1 - m - phi * m)%float)) /\
       ((1 - m - phi * m) <? 0)%float = true) /\
  (is_nan (1 - m - phi * m)%float = true ->
   parameters.estimar_phi_psi fmt_6f m phi = Ok (phi, (1 - m - phi * m)%float) /\
   fst (linear_relations.calcular_phi_psi m phi) <> []).
Proof.
  unfold parameters.estimar_phi_psi, linear_relations.calcular_phi_psi.
  set (psi := (1 - m - phi * m)%float).
  split; [|split].
  - intros v. destruct (psi <? 0)%float; [discriminate|]. now intros [= <-].
  - intros e. destruct (psi <? 0)%float eqn:E; [|discriminate]. intros _.
    rewrite (ltb_leb_false _ _ E). cbn. eauto.
  - intros Hn.
    assert (H1 : (psi <? 0)%float = false).
    { destruct (psi <? 0)%float eqn:E; [|reflexivity].
      apply ltb_no_nan in E. destruct E; congruence. }
    assert (H2 : (0 <=? psi)%float = false).
    { destruct (0 <=? psi)%float eqn:E; [|reflexivity].
      apply leb_no_nan in E. destruct E; congruence. }
    rewrite H1, H2. cbn. split; [reflexivity|discriminate].
Qed.

Lemma X10_phi_psi_testigo :
  snd (linear_relations.calcular_phi_psi 0.005 0.5) = (0.5, 0.9925)%float /\
  exists aviso,
    linear_relations.calcular_phi_psi 0.8 0.5 = ([aviso], (0.5, (1 - 0.8 - 0.5 * 0.8))%float).
Proof.
  split.
  - apply (proj1 (X10_phi_psi Ejemplos.sin_formato 0.005 0.5)). reflexivity.
  - destruct (proj1 (proj2 (X10_phi_psi Ejemplos.sin_formato 0.8 0.5)) _ eq_refl)
      as (aviso & H & _).
    exists aviso. exact H.
Defined.

(** ** Validation and estimation of the parameters *)

(** X11: what [validar_parametros] accepts.  If it returns, it returns
    [True]; [phi], [psi] and [beta] lie in [[0, 1]] (so none of them is NaN);
    none of [delta], [delta_s], [delta_n], [m], [theta], [rho], [gamma]
    is below zero, so each is at least zero unless it is NaN, which the
    checks let through; [delta] differs from [delta_s + delta_n] by no more
    than 1e-6; and a warning is printed exactly when [m] exceeds 0.5.
    Conversely every record that passes these checks is accepted. *)
Theorem X11_validar_parametros (str_float : float -> string)
    (params : ModeloParametros) :
  (forall salida b,
     parameters.validar_parametros str_float params = Ok (salida, b) ->
     b = true /\
     (0 <=? phi params)%float && (phi params <=? 1)%float = true /\
     (0 <=? psi params)%float && (psi params <=? 1)%float = true /\
     (0 <=? beta params)%float && (beta params <=? 1)%float = true /\
     Forall (fun r => (r <? 0)%float = false /\
                      (is_nan r = false -> (0 <=? r)%float = true))
       [delta params; delta_s params; delta_n params; m params;
        theta params; rho params; gamma params] /\
     (1e-6 <? abs (delta params - (delta_s params + delta_n params)))%float = false /\
     (salida = [] <-> (0.5 <? m params)%float = false)) /\
  ((0 <=? phi params)%float && (phi params <=? 1)%float = true ->
   (0 <=? psi params)%float && (psi params <=? 1)%float = true ->
   (0 <=? beta params)%float && (beta params <=? 1)%float = true ->
   Forall (fun r => (r <? 0)%float = false)
     [delta params; delta_s params; delta_n params; m params;
      theta params; rho params; gamma params] ->
   (1e-6 <? abs (delta params - (delta_s params + delta_n params)))%float = false ->
   exists salida, parameters.validar_parametros str_float params = Ok (salida, true)).
Proof.
  unfold parameters.validar_parametros. split.
  - intros salida b.
    destruct (delta params <? 0)%float eqn:E1; [discriminate|].
    destruct (delta_s params <? 0)%float eqn:E2; [discriminate|].
    destruct (delta_n params <? 0)%float eqn:E3; [discriminate|].
    destruct (1e-6 <? abs _)%float eqn:E4; [discriminate|].
    destruct ((0 <=? phi params)%float && _) eqn:E5; cbn [negb]; [|discriminate].
    destruct ((0 <=? psi params)%float && _) eqn:E6; cbn [negb]; [|discriminate].
    destruct ((0 <=? beta params)%float && _) eqn:E7; cbn [negb]; [|discriminate].
    destruct (m params <? 0)%float eqn:E8; [discriminate|].
    destruct (theta params <? 0)%float eqn:E9; [discriminate|].
    destruct (rho params <? 0)%float eqn:E10; [discriminate|].
    destruct (gamma params <? 0)%float eqn:E11; [discriminate|].
    intros [= <- <-]. repeat split; try reflexivity;
      try (intros Hn; now apply ltb_false_leb); try assumption.
    + repeat constructor; try assumption; intros Hn; now apply ltb_false_leb.
    + destruct (0.5 <? m params)%float; [discriminate|reflexivity].
    + intros ->. reflexivity.
  - intros H5 H6 H7 HF H4.
    repeat (apply Forall_cons_iff in HF; destruct HF as [? HF]).
    repeat match goal with H : (_ <? 0)%float = false |- _ => rewrite H; clear H end.
    rewrite H4, H5, H6, H7. cbn. eauto.
Qed.

Lemma X11_validar_parametros_testigo :
  exists salida,
    parameters.validar_parametros Ejemplos.sin_formato Ejemplos.params_3
      = Ok (salida, true) /\
    salida = [].
Proof.
  destruct (proj2 (X11_validar_parametros Ejemplos.sin_formato Ejemplos.params_3)
              eq_refl eq_refl eq_refl ltac:(repeat constructor) eq_refl)
    as [salida Hs].
  exists salida. split; [exact Hs|].
  destruct (proj1 (X11_validar_parametros Ejemplos.sin_formato Ejemplos.params_3)
              salida true Hs) as (_ & _ & _ & _ & _ & _ & Hw).
  apply Hw. reflexivity.
Defined.

(** X12: the windowed [estimar_m] is the whole-series [estimar_m] applied
    to the rows of the window, except where that one fails: a window
    without rows raises [ValueError], and a window in which no year has a
    positive ratio [T_obs / P] gives [m = 0.0] where the whole-series
    estimator raises. *)
Theorem X12_estimar_m_ventana (np_exp np_log : float -> float)
    (np_mean : list float -> float) (df : DataFrame) (anio_ini anio_fin : Z) :
  linear_relations.estimar_m np_exp np_log np_mean df anio_ini anio_fin =
  match ventana df anio_ini anio_fin with
  | [] => Raise (ValueError ("No hay datos en el rango " ++ str_Z anio_ini ++ "-"
                             ++ str_Z anio_fin)%string)
  | f :: w =>
      match parameters.estimar_m np_exp np_log np_mean (f :: w) with
      | Ok m => Ok m
      | Raise _ => Ok 0.0%float
      end
  end.
Proof.
  unfold linear_relations.estimar_m, parameters.estimar_m, ventana.
  destruct (filter _ df) as [|f w]; [reflexivity|].
  destruct (filter _ (map _ (f :: w))); reflexivity.
Qed.

(** ** Fit statistics *)

(** X13: [calculate_statistics] passes on the failures of the desk check:
    the [ValueError] of a start year missing from the table and the
    [IndexError] of a solver result without points.  When the desk check
    returns a table in which no simulated time meets an observed year with
    both [T_obs] and [T_model] present (the observations met are missing or
    the simulated values are NaN), it reports all five metrics as 0.0 with
    [n_obs = 0] rather than failing.  In every case [n_obs] counts the rows
    of the desk check in which neither value is NaN. *)
Theorem X13_calculate_statistics (solve_ivp : solve_ivp_t)
    (np_sum np_mean : list float -> float) (df : DataFrame)
    (params : ModeloParametros) (anio_ini anio_fin : Z) :
  ((forall f, In f df -> anio f <> anio_ini) ->
   core_statistics.calculate_statistics solve_ivp np_sum np_mean df params
     anio_ini anio_fin
   = Raise (ValueError ("No hay datos para el anio " ++ str_Z anio_ini)%string)) /\
  (forall x0 sol,
     core_analysis.condiciones_iniciales df params anio_ini = Ok x0 ->
     solve_ivp
       (ModeloNoLineal.rhs
          (ModeloNoLineal.init params (map anio df) (map Poblacion_10ymas_P df)))
       (Z2float anio_ini, Z2float anio_fin) x0 "RK45"%string
       (Some (map Z2float (core_analysis.arange anio_ini (anio_fin + 1)))) false
       = Ok sol ->
     (ode_puntos sol = [] ->
      core_statistics.calculate_statistics solve_ivp np_sum np_mean df params
        anio_ini anio_fin
      = Raise (IndexError "list index out of range")) /\
     (ode_puntos sol <> [] ->
      (forall pt f, In pt (ode_puntos sol) -> In f df ->
         (fst pt =? Z2float (anio f))%float = true ->
         is_nan (T_obs f) = true \/ is_nan (comp_T (snd pt)) = true) ->
      core_statistics.calculate_statistics solve_ivp np_sum np_mean df params
        anio_ini anio_fin
      = Ok (core_statistics.mkEstadisticas 0.0 0.0 0.0 0.0 0.0 0))) /\
  (forall st,
     core_statistics.calculate_statistics solve_ivp np_sum np_mean df params
       anio_ini anio_fin = Ok st ->
     exists tabla,
       core_analysis.prueba_escritorio solve_ivp df params anio_ini anio_fin
         = Ok tabla /\
       core_statistics.n_obs st = List.length (core_statistics.dropna tabla) /\
       core_statistics.n_obs st <= List.length tabla).
Proof.
  split; [|split].
  - intros H. unfold core_statistics.calculate_statistics,
      core_analysis.prueba_escritorio, core_analysis.condiciones_iniciales.
    rewrite filter_ninguno; [reflexivity|].
    intros f Hf. apply Z.eqb_neq. now apply H.
  - intros x0 sol Hci Hsol.
    unfold core_statistics.calculate_statistics, core_analysis.prueba_escritorio,
      ode_y_fila.
    rewrite Hci; cbn [bind]. rewrite Hsol; cbn [bind].
    split; [intros ->; reflexivity|]. intros Hne Hnan.
    destruct (ode_puntos sol) as [|pt0 puntos] eqn:Ep; [congruence|]. clear Hne.
    cbn [bind]. rewrite <- Ep in *. clear Ep pt0 puntos.
    unfold core_statistics.dropna. rewrite filter_ninguno; [reflexivity|].
    intros fila Hfila. apply in_map_iff in Hfila. destruct Hfila as (r & <- & Hr).
    apply merge_left_In in Hr.
    destruct Hr as ([a y] & Hpt & [[_ ->]|(f & Hf & ->)]); cbn; [reflexivity|].
    apply filter_In in Hf. destruct Hf as [Hf Hm]. cbn in Hm.
    destruct (Hnan (a, y) f Hpt Hf Hm) as [-> | H]; [reflexivity|].
    cbn in H. rewrite H. now rewrite andb_false_r.
  - intros st. unfold core_statistics.calculate_statistics.
    destruct (core_analysis.prueba_escritorio _ _ _ _ _) as [tabla|e]; cbn [bind];
      [|discriminate].
    intros H. exists tabla. split; [reflexivity|].
    assert (Hle : List.length (core_statistics.dropna tabla) <= List.length tabla)
      by apply filter_length_le.
    destruct (core_statistics.dropna tabla) as [|r valid].
    + injection H as <-. cbn. split; [reflexivity|lia].
    + injection H as <-. cbn [core_statistics.n_obs].
      rewrite length_map. split; [reflexivity|exact Hle].
Qed.

Lemma X13_calculate_statistics_testigo :
  core_statistics.calculate_statistics Ejemplos.solver_fallido
    (fun _ => 0%float) (fun _ => 0%float) Ejemplos.df_3 Ejemplos.params_3 2009 2012
  = Raise (ValueError "No hay datos para el anio 2009") /\
  core_statistics.calculate_statistics Ejemplos.solver_sin_puntos
    (fun _ => 0%float) (fun _ => 0%float) Ejemplos.df_3 Ejemplos.params_3 2010 2012
  = Raise (IndexError "list index out of range") /\
  core_statistics.calculate_statistics Ejemplos.solver_constante
    (fun _ => 0%float) (fun _ => 0%float) Ejemplos.df_sin_obs Ejemplos.params_3
    2010 2011
  = Ok (core_statistics.mkEstadisticas 0.0 0.0 0.0 0.0 0.0 0).
Proof.
  split; [|split].
  - apply (proj1 (X13_calculate_statistics Ejemplos.solver_fallido
                    (fun _ => 0%float) (fun _ => 0%float) Ejemplos.df_3
                    Ejemplos.params_3 2009 2012)).
    intros f [<-|[<-|[<-|[]]]]; discriminate.
  - apply (proj1 (proj1 (proj2 (X13_calculate_statistics Ejemplos.solver_sin_puntos
                    (fun _ => 0%float) (fun _ => 0%float) Ejemplos.df_3
                    Ejemplos.params_3 2010 2012))
             (99250, 500, 250)%float
             (mkOdeResult [] (fun _ => (99250, 500, 250)%float) false (-1)
                "Required step size is less than spacing between numbers.")
             eq_refl eq_refl)).
    reflexivity.
  - apply (proj2 (proj1 (proj2 (X13_calculate_statistics Ejemplos.solver_constante
                    (fun _ => 0%float) (fun _ => 0%float) Ejemplos.df_sin_obs
                    Ejemplos.params_3 2010 2011))
             (estado_inicial_espec Ejemplos.params_3 1000)
             (mkOdeResult
                [(2010%float, estado_inicial_espec Ejemplos.params_3 1000);
                 (2011%float, estado_inicial_espec Ejemplos.params_3 1000)]
                (fun _ => estado_inicial_espec Ejemplos.params_3 1000) true 0
                "The solver successfully reached the end of the integration interval.")
             eq_refl eq_refl)).
    + discriminate.
    + intros pt f _ [<-|[<-|[]]] _; left; reflexivity.
Defined.

(** ** The left join of the desk check *)

Lemma merge_left_uno (res_df : list (float * vec3)) (df_obs : DataFrame) :
  (forall pt, In pt res_df ->
     List.length (filter (fun f => (fst pt =? Z2float (anio f))%float) df_obs) <= 1) ->
  map (fun fila => (fst (fst (fst fila)), snd (fst (fst fila))))
      (core_analysis.merge_left res_df df_obs) = res_df.
Proof.
  induction res_df as [|[a y] l IH]; intros H; [reflexivity|].
  unfold core_analysis.merge_left in *. cbn [flat_map]. rewrite map_app.
  rewrite IH; [|intros pt Hpt; apply H; now right].
  specialize (H (a, y) (or_introl eq_refl)). cbn [fst snd] in *.
  destruct (filter _ df_obs) as [|g [|g' gs]]; cbn in *; [reflexivity|reflexivity|lia].
Qed.

(** X14: when the solver produced at least one point and no simulated time
    meets more than one row of the table (the years of the table are
    distinct), the windowed desk check returns exactly one row per simulated
    point, in the solver's order, carrying that point's time and state: no
    simulated row is repeated or dropped. *)
Theorem X14_prueba_escritorio_una_fila_por_punto (solve_ivp : solve_ivp_t)
    (df : DataFrame) (params : ModeloParametros) (anio_ini anio_fin : Z)
    (x0 : vec3) (sol : OdeResult) :
  core_analysis.condiciones_iniciales df params anio_ini = Ok x0 ->
  solve_ivp
    (ModeloNoLineal.rhs
       (ModeloNoLineal.init params (map anio df) (map Poblacion_10ymas_P df)))
    (Z2float anio_ini, Z2float anio_fin) x0 "RK45"%string
    (Some (map Z2float (core_analysis.arange anio_ini (anio_fin + 1)))) false
    = Ok sol ->
  ode_puntos sol <> [] ->
  (forall pt, In pt (ode_puntos sol) ->
     List.length (filter (fun f => (fst pt =? Z2float (anio f))%float) df) <= 1) ->
  exists tabla,
    core_analysis.prueba_escritorio solve_ivp df params anio_ini anio_fin = Ok tabla /\
    map core_analysis.r_anio tabla = ode_t sol /\
    map core_analysis.S_model tabla = ode_y comp_S sol /\
    map core_analysis.T_model tabla = ode_y comp_T sol /\
    map core_analysis.R_model tabla = ode_y comp_R sol.
Proof.
  intros Hci Hsol Hne Huno. unfold core_analysis.prueba_escritorio, ode_y_fila.
  rewrite Hci; cbn [bind]. rewrite Hsol; cbn [bind].
  destruct (ode_puntos sol) as [|pt0 puntos] eqn:Ep; [congruence|]. clear Hne.
  cbn [bind]. rewrite <- Ep in *. clear Ep pt0 puntos.
  eexists. split; [reflexivity|].
  pose proof (merge_left_uno (ode_puntos sol) df Huno) as Hm.
  unfold ode_t, ode_y. rewrite <- Hm at 2 4 6 8. rewrite !map_map.
  repeat split; apply map_ext; intros [[[a y] P] T_o]; reflexivity.
Qed.

Lemma X14_prueba_escritorio_una_fila_por_punto_testigo :
  exists tabla,
    core_analysis.prueba_escritorio Ejemplos.solver_constante Ejemplos.df_3
      Ejemplos.params_3 2010 2013 = Ok tabla /\
    map core_analysis.r_anio tabla = [2010; 2011; 2012; 2013]%float.
Proof.
  destruct (X14_prueba_escritorio_una_fila_por_punto Ejemplos.solver_constante
              Ejemplos.df_3 Ejemplos.params_3 2010 2013 (99250, 500, 250)%float
              (mkOdeResult
                 (map (fun t => (t, (99250, 500, 250)%float))
                    [2010; 2011; 2012; 2013]%float)
                 (fun _ => (99250, 500, 250)%float) true 0
                 "The solver successfully reached the end of the integration interval.")
              eq_refl eq_refl)
    as (tabla & Ht & Ha & _).
  - discriminate.
  - intros pt [<-|[<-|[<-|[<-|[]]]]]; cbn; lia.
  - exists tabla. split; [exact Ht|exact Ha].
Defined.

(** ** Non-negative initial state *)

(** X15: the state returned by the whole-series initial condition solver
    has no component below zero, whatever the parameters and the population
    of the first row; a component that is not NaN is at least zero.  (The
    windowed solver gives no such guarantee.) *)
Theorem X15_estado_inicial_no_negativo (df : DataFrame) (params : ModeloParametros)
    (salida : list linea) (x0 : vec3) :
  analysis.condiciones_iniciales df params = Ok (salida, x0) ->
  Forall (fun c => (c <? 0)%float = false /\
                   (is_nan c = false -> (0 <=? c)%float = true))
    [comp_S x0; comp_T x0; comp_R x0].
Proof.
  destruct df as [|f resto]; [discriminate|].
  destruct (condiciones_iniciales_serie_recorta f resto params) as (s & ->).
  intros [= _ <-]. unfold comp_S, comp_T, comp_R; cbn [fst snd].
  assert (H : forall x, (recorte_0 x <? 0)%float = false /\
                        (is_nan (recorte_0 x) = false -> (0 <=? recorte_0 x)%float = true)).
  { intros x. unfold recorte_0. destruct (x <? 0)%float eqn:E.
    - split; reflexivity.
    - split; [exact E|]. intros Hn. now apply ltb_false_leb. }
  repeat constructor; apply H.
Qed.

Lemma X15_estado_inicial_no_negativo_testigo :
  Forall (fun c => (c <? 0)%float = false /\
                   (is_nan c = false -> (0 <=? c)%float = true))
    [0; 800; 400]%float.
Proof.
  apply (X15_estado_inicial_no_negativo Ejemplos.df_1000 Ejemplos.params_neg
           [ Linea "Advertencia: S0 < 0. Ajustando a 0." [(-200)%float];
             Linea "Condiciones iniciales (anio):" [2010%float];
             Linea "  P0 =" [1000%float];
             Linea "  S0 = (% de P)" [0; 0]%float;
             Linea "  T0 = (% de P)" [800; 80]%float;
             Linea "  R0 = (% de P)" [400; 40]%float;
             Linea "  Verificacion: S0+T0+R0 = (aprox P0 = )" [1200; 1000]%float ]
           (0, 800, 400)%float).
  vm_compute. reflexivity.
Defined.

(** ** The two right-hand sides on a population of at least one *)

Lemma ltb_1e9_ltb_1 (P : float) : (P <? 1e-9)%float = true -> (P <? 1)%float = true.
Proof.
  rewrite !FloatAxioms.ltb_spec. unfold SFltb.
  change (Prim2SF 1e-9) with (S754_finite false 4835703278458517 (-82)).
  change (Prim2SF 1) with (S754_finite false 4503599627370496 (-52)).
  destruct (Prim2SF P) as [s|s| |s mx ex]; cbv beta iota delta [SFcompare];
    try (intros H; exact H).
  destruct s; [intros _; reflexivity|].
  assert (Hc : forall c : comparison,
             match match (ex ?= -82)%Z with Eq => c | Lt => Lt | Gt => Gt end with
             | Lt => true | _ => false end = true -> (ex ?= -52)%Z = Lt).
  { intros c. destruct (Z.compare_spec ex (-82)) as [->|Hlt|Hgt];
      intros H; try discriminate H; [reflexivity|].
    apply Z.compare_lt_iff. lia. }
  intros H. apply Hc in H. rewrite H. reflexivity.
Qed.

(** X16: built by their constructors from the same series of strictly
    increasing years, the two classes return the same derivative vector at
    every time at which the interpolated population is not below 1.0:
    there neither guard changes the population, so on such a series the two
    implementations differ only for populations below one person. *)
Theorem X16_rhs_coinciden (p : ModeloParametros) (P : list float)
    (series_anio : list Z) (t : float) (y : vec3) (Pv : float) :
  List.length P = List.length series_anio ->
  Sorted Z.lt series_anio ->
  creciente (map Z2float series_anio) ->
  np_interp t (map Z2float series_anio) P = Ok Pv ->
  (Pv <? 1)%float = false ->
  exists ms,
    ModeloSuicidio.init p P series_anio = Ok ms /\
    ModeloNoLineal.rhs (ModeloNoLineal.init p series_anio P) t y
    = ModeloSuicidio.rhs ms t y.
Proof.
  intros Hl Hs _ HP H1.
  exists (ModeloSuicidio.mk p P series_anio). split.
  - unfold ModeloSuicidio.init. rewrite Hl, Nat.eqb_refl. cbn.
    rewrite (ordenar_combine_ordenado series_anio P (Sorted_lt_le _ Hs)).
    now rewrite combine_map_snd, combine_map_fst.
  - rewrite rhs_ModeloNoLineal_espec, rhs_ModeloSuicidio_espec.
    unfold divisor_ModeloNoLineal, divisor_ModeloSuicidio,
      ModeloNoLineal.P_t, ModeloSuicidio.P_t, ModeloNoLineal.init; cbn.
    rewrite HP; cbn. unfold guarda_P, piso_P.
    change 1.0%float with 1%float. rewrite H1.
    destruct (Pv <? 1e-9)%float eqn:E9; [|reflexivity].
    apply ltb_1e9_ltb_1 in E9. congruence.
Qed.

Lemma X16_rhs_coinciden_testigo :
  exists ms,
    ModeloSuicidio.init Ejemplos.params_3 [100000; 101000; 102000]%float
      [2010; 2011; 2012]%Z = Ok ms /\
    ModeloNoLineal.rhs Ejemplos.mn_3 2010.5 (99250, 500, 250)%float
    = ModeloSuicidio.rhs ms 2010.5 (99250, 500, 250)%float.
Proof.
  apply (X16_rhs_coinciden Ejemplos.params_3 [100000; 101000; 102000]%float
           [2010; 2011; 2012]%Z 2010.5 (99250, 500, 250)%float 100500%float);
    try reflexivity; repeat constructor.
Defined.
